(** * Result assembly in the Whisper / WhisperX transcription scripts

    A shallow embedding of the three command-line scripts

      - [scripts/whisper_simple.py]      (plain Whisper, class [SimpleWhisperTranscriber])
      - [scripts/whisperx_processor.py]  (WhisperX, function [transcribe_audio])
      - [scripts/whisperx_service.py]    (WhisperX with diarization, class [WhisperXTranscriber])

    and of the properties their output documents satisfy.

    Conventions of the embedding.

    - Python numbers ([int] and [float]) are exact rationals [Q]; equality of
      numbers is [Qeq] ([==]).  Rounding of binary floating point is not
      modelled.
    - A Python [str] is a [string]; every [ascii] stands for the code point of
      the same number (the Latin-1 range).
    - A dictionary coming from the external libraries is a record with one
      optional field per key the scripts look at: [None] is an absent key.
    - A dictionary built by the scripts is a record as well; a key that only
      some script writes is an optional field.
    - An exception is the [Raise] branch of [result]; statements that print
      or write files run in the monad [M] over a [World]. *)

From Stdlib Require Import List String Ascii Bool Arith ZArith NArith QArith Lia Sorted.
Import ListNotations.
Open Scope string_scope.
Open Scope list_scope.
Open Scope Q_scope.

Set Implicit Arguments.

(* ================================================================== *)
(** * Python prelude *)

(** ** Exceptions *)

Inductive exn : Type :=
| KeyError (key : string)
| Exception (msg : string).

(** [str(e)]: a [KeyError] prints the [repr] of its key. *)
Definition str_exn (e : exn) : string :=
  match e with
  | KeyError key => ("'" ++ key ++ "'")%string
  | Exception msg => msg
  end.

Inductive result (A : Type) : Type :=
| Ok (a : A)
| Raise (e : exn).
Arguments Ok {A} a.
Arguments Raise {A} e.

Definition rbind {A B} (r : result A) (k : A -> result B) : result B :=
  match r with
  | Ok a => k a
  | Raise e => Raise e
  end.

Declare Scope result_scope.
Delimit Scope result_scope with result.
Notation "x <- r ;; k" := (rbind r (fun x => k))
  (at level 61, r at next level, right associativity) : result_scope.

(** [d[key]]: subscript of a dictionary by a key that may be absent. *)
Definition subscript {A} (key : string) (field : option A) : result A :=
  match field with
  | Some a => Ok a
  | None => Raise (KeyError key)
  end.

(** [d.get(key, default)]. *)
Definition get {A} (field : option A) (default : A) : A :=
  match field with
  | Some a => a
  | None => default
  end.

(** [key in d]. *)
Definition contains {A} (field : option A) : bool :=
  match field with
  | Some _ => true
  | None => false
  end.

(** A [for] loop whose body may raise: the state is threaded through the
    iterations, in the order of the list. *)
Fixpoint for_each {S A} (body : S -> A -> result S) (items : list A) (s : S)
  : result S :=
  match items with
  | [] => Ok s
  | x :: rest =>
      match body s x with
      | Ok s' => for_each body rest s'
      | Raise e => Raise e
      end
  end.

(** A list comprehension [[f(x) for x in items]] whose element may raise. *)
Fixpoint comprehension {A B} (f : A -> result B) (items : list A)
  : result (list B) :=
  match items with
  | [] => Ok []
  | x :: rest =>
      match f x with
      | Ok y =>
          match comprehension f rest with
          | Ok ys => Ok (y :: ys)
          | Raise e => Raise e
          end
      | Raise e => Raise e
      end
  end.

(** ** [str.strip()] *)

(** [str.isspace] on the code points below 256. *)
Definition isspace (c : ascii) : bool :=
  let n := N_of_ascii c in
  (((9 <=? n) && (n <=? 13)) || ((28 <=? n) && (n <=? 32))
   || (n =? 133) || (n =? 160))%N.

Fixpoint lstrip (s : string) : string :=
  match s with
  | EmptyString => EmptyString
  | String c rest => if isspace c then lstrip rest else s
  end.

Fixpoint rstrip (s : string) : string :=
  match s with
  | EmptyString => EmptyString
  | String c rest =>
      match rstrip rest with
      | EmptyString => if isspace c then EmptyString else String c EmptyString
      | kept => String c kept
      end
  end.

Definition strip (s : string) : string := rstrip (lstrip s).

(** ** Numbers *)

(** [sum(xs)]: the built-in starts from [0] and adds from the left. *)
Definition sum (xs : list Q) : Q := fold_left Qplus xs 0.

(** [len(xs)] as a number. *)
Definition len {A} (xs : list A) : Q := inject_Z (Z.of_nat (List.length xs)).

(** ** Insertion-ordered dictionaries with string keys *)

Definition dict (V : Type) : Type := list (string * V).

Fixpoint dict_in {V} (key : string) (d : dict V) : bool :=
  match d with
  | [] => false
  | (k, _) :: rest => if String.eqb k key then true else dict_in key rest
  end.

Fixpoint dict_lookup {V} (key : string) (d : dict V) : option V :=
  match d with
  | [] => None
  | (k, v) :: rest => if String.eqb k key then Some v else dict_lookup key rest
  end.

(** [d[key] = v] for a new key: the entry goes last. *)
Definition dict_add {V} (key : string) (v : V) (d : dict V) : dict V :=
  d ++ [(key, v)].

(** In-place update of the entry of [key]; its position is kept. *)
Fixpoint dict_update {V} (key : string) (f : V -> V) (d : dict V) : dict V :=
  match d with
  | [] => []
  | (k, v) :: rest =>
      if String.eqb k key then (k, f v) :: rest
      else (k, v) :: dict_update key f rest
  end.

(** [list(d.values())]. *)
Definition values {V} (d : dict V) : list V := map snd d.

(** [list(d)]: the keys, in insertion order. *)
Definition keys {V} (d : dict V) : list string := map fst d.

(* ================================================================== *)
(** * Data model *)

(** ** What the external libraries return *)

(** A word dictionary.  Whisper writes [probability], WhisperX [score] and,
    after diarization, [speaker]. *)
Record RawWord : Type := {
  raw_word_word : option string;
  raw_word_start : option Q;
  raw_word_end : option Q;
  raw_word_probability : option Q;
  raw_word_confidence : option Q;
  raw_word_score : option Q;
  raw_word_speaker : option string
}.

(** A segment dictionary. *)
Record RawSegment : Type := {
  raw_start : option Q;
  raw_end : option Q;
  raw_text : option string;
  raw_score : option Q;
  raw_confidence : option Q;
  raw_words : option (list RawWord);
  raw_speaker : option string
}.

(** The dictionary returned by [transcribe], [align] and
    [assign_word_speakers]. *)
Record RawResult : Type := {
  raw_language : option string;
  raw_segments : option (list RawSegment)
}.

(** ** What the scripts build *)

Record Word : Type := {
  word_word : string;
  word_start : Q;
  word_end : Q;
  word_confidence : Q
}.

(** The value under the key ["words"] of an output segment: a list of
    [Word] dictionaries built by the script, or the list of the library
    handed on as it came. *)
Inductive Words : Type :=
| Built (ws : list Word)
| HandedOn (ws : list RawWord).

Record Segment : Type := {
  seg_id : option nat;
  seg_start : Q;
  seg_end : Q;
  seg_text : string;
  seg_confidence : Q;
  seg_speaker : option string;
  seg_words : option Words
}.

(** An entry of [speaker_stats]; the count is stored under the key
    ["segments"]. *)
Record SpeakerStat : Type := {
  spk_id : string;
  spk_segments : nat;
  spk_total_duration : Q
}.

Record Document : Type := {
  doc_language : string;
  doc_segments : list Segment;
  doc_speakers : option (list SpeakerStat);
  doc_confidence : option Q
}.


(* ================================================================== *)
(** * Processes: standard streams, files and exceptions *)

(** A line on the standard output. *)
Inductive stdout_line : Type :=
| JsonDocument (d : Document)
    (** [json.dumps] of a transcription document *)
| JsonError (error : string) (success : bool)
    (** [json.dumps] of [{"error": ..., "success": ...}] *)
| Text (s : string)
| TextSegments (n : nat)
    (** [f"Segments: {n}"] *)
| TextConfidence (q : Q).
    (** [f"Confidence: {q:.2%}"] *)

(** A line on the standard error: a [print], a record of the [logging]
    module (its time stamp left out), or the trace of an exception nobody
    caught. *)
Inductive stderr_line : Type :=
| Printed (s : string)
| Log (level message : string)
| Traceback (e : exn).

Record World : Type := {
  stdout : list stdout_line;
  stderr : list stderr_line;
  files : list (string * Document);   (** files written: path, content *)
  dirs : list string                  (** directories created *)
}.

(** The world a process starts in. *)
Definition started : World :=
  {| stdout := []; stderr := []; files := []; dirs := [] |}.

(** Statements: they change the world and return or raise. *)
Definition M (A : Type) : Type := World -> result A * World.

Definition ret {A} (a : A) : M A := fun w => (Ok a, w).

Definition raise {A} (e : exn) : M A := fun w => (Raise e, w).

Definition bind {A B} (m : M A) (k : A -> M B) : M B :=
  fun w =>
    match m w with
    | (Ok a, w') => k a w'
    | (Raise e, w') => (Raise e, w')
    end.

(** A call that has no effect on the world. *)
Definition call {A} (r : result A) : M A := fun w => (r, w).

(** [try: body except Exception as e: handler(e)]. *)
Definition try_except {A} (body : M A) (handler : exn -> M A) : M A :=
  fun w =>
    match body w with
    | (Ok a, w') => (Ok a, w')
    | (Raise e, w') => handler e w'
    end.

Declare Scope M_scope.
Delimit Scope M_scope with M.
Notation "x <- m ;; k" := (bind m (fun x => k))
  (at level 61, m at next level, right associativity) : M_scope.
Notation "m ;; k" := (bind m (fun _ => k))
  (at level 61, right associativity) : M_scope.

(** [print(s)]. *)
Definition print (l : stdout_line) : M unit :=
  fun w => (Ok tt, {| stdout := stdout w ++ [l]; stderr := stderr w;
                      files := files w; dirs := dirs w |}).

(** [print(s, file=sys.stderr)] and the handlers of [logging]. *)
Definition eprint (l : stderr_line) : M unit :=
  fun w => (Ok tt, {| stdout := stdout w; stderr := stderr w ++ [l];
                      files := files w; dirs := dirs w |}).

(** The process: the exit status of a script body, [1] with a trace on the
    standard error when an exception reaches the top. *)
Definition process (body : M Z) : Z * World :=
  match body started with
  | (Ok status, w) => (status, w)
  | (Raise e, w) =>
      (1%Z, {| stdout := stdout w; stderr := stderr w ++ [Traceback e];
               files := files w; dirs := dirs w |})
  end.

(** Truth value of an optional string argument: [None] and [""] are false. *)
Definition truthy (s : option string) : bool :=
  match s with
  | Some s => negb (String.eqb s "")
  | None => false
  end.

(** ** The operating system

    What the scripts ask of [open], [pathlib] and [os]; all of it is outside
    the repository. *)
Record os_lib : Type := {
  (** [open(path, 'w')]: [Ok] when the file can be opened for writing *)
  open_w : string -> result unit;
  (** [Path(path).with_suffix(suffix)] *)
  with_suffix : string -> string -> result string;
  (** [Path(dir) / f"{Path(path).stem}_transcription.json"] *)
  transcription_path : string -> string -> string;
  (** [Path.mkdir(parents=True, exist_ok=True)] *)
  mkdir : string -> result unit;
  (** [os.getenv] *)
  getenv : string -> option string
}.

(** [with open(path, 'w') as f: json.dump(doc, f)]. *)
Definition dump (os : os_lib) (path : string) (doc : Document) : M unit :=
  fun w =>
    match open_w os path with
    | Ok _ => (Ok tt, {| stdout := stdout w; stderr := stderr w;
                         files := files w ++ [(path, doc)];
                         dirs := dirs w |})
    | Raise e => (Raise e, w)
    end.

(** [path.mkdir(parents=True, exist_ok=True)]. *)
Definition makedirs (os : os_lib) (path : string) : M unit :=
  fun w =>
    match mkdir os path with
    | Ok _ => (Ok tt, {| stdout := stdout w; stderr := stderr w;
                         files := files w; dirs := dirs w ++ [path] |})
    | Raise e => (Raise e, w)
    end.

(** ** The Whisper library *)
Record whisper_lib : Type := {
  whisper_model : Type;
  (** [whisper.load_model(model_size)] *)
  whisper_load_model : string -> result whisper_model;
  (** [model.transcribe(audio_path, language=..., word_timestamps=True,
      verbose=False)] *)
  whisper_transcribe : whisper_model -> string -> option string
                       -> result RawResult
}.

(** ** The WhisperX library, with [torch.cuda] *)
Record whisperx_lib : Type := {
  Model : Type;
  Audio : Type;
  AlignModel : Type;
  Metadata : Type;
  Diarizer : Type;
  DiarizeSegments : Type;
  (** [torch.cuda.is_available()] *)
  cuda_is_available : bool;
  (** [whisperx.load_model(model_size, device, compute_type=...,
      language=...)] *)
  load_model : string -> string -> string -> option string -> result Model;
  (** [whisperx.load_audio(audio_path)] *)
  load_audio : string -> result Audio;
  (** [model.transcribe(audio, batch_size=..., language=...)] *)
  model_transcribe : Model -> Audio -> nat -> option string
                     -> result RawResult;
  (** [whisperx.load_align_model(language_code=..., device=...)] *)
  load_align_model : string -> string -> result (AlignModel * Metadata);
  (** [whisperx.align(segments, model_a, metadata, audio, device,
      return_char_alignments=False)] *)
  align : list RawSegment -> AlignModel -> Metadata -> Audio -> string
          -> result RawResult;
  (** [whisperx.DiarizationPipeline(use_auth_token=..., device=...)] *)
  DiarizationPipeline : string -> string -> result Diarizer;
  (** [diarize_model(audio, min_speakers=..., max_speakers=...)] *)
  diarize : Diarizer -> Audio -> option Z -> option Z
            -> result DiarizeSegments;
  (** [whisperx.assign_word_speakers(diarize_segments, result)] *)
  assign_word_speakers : DiarizeSegments -> RawResult -> result RawResult
}.

(* ================================================================== *)
(** * scripts/whisper_simple.py *)

Module whisper_simple.

(** The dictionary of one word, lines 74-79. *)
Definition word_data (word : RawWord) : Word :=
  {| word_word := get (raw_word_word word) "";
     word_start := get (raw_word_start word) 0;
     word_end := get (raw_word_end word) 0;
     word_confidence := get (raw_word_probability word) 1 |}.

(** [seg_data], lines 64-81. *)
Definition seg_data (segment : RawSegment) : result Segment :=
  (start <- subscript "start" (raw_start segment) ;;
   end_ <- subscript "end" (raw_end segment) ;;
   text <- subscript "text" (raw_text segment) ;;
   Ok {| seg_id := None;
         seg_start := start;
         seg_end := end_;
         seg_text := strip text;
         seg_confidence := 1;
         seg_speaker := None;
         seg_words :=
           match raw_words segment with
           | Some words => Some (Built (map word_data words))
           | None => None
           end |})%result.

(** The body of the loop of lines 63-83, on [output["segments"]]. *)
Definition loop_body (segments : list Segment) (segment : RawSegment)
  : result (list Segment) :=
  (seg <- seg_data segment ;;
   Ok (segments ++ [seg]))%result.

(** Lines 56-85 of [transcribe]: the document built from the result of
    [model.transcribe]. *)
Definition format_output (detected_language : string) (result_ : RawResult)
  : result Document :=
  (segments <- for_each loop_body (get (raw_segments result_) []) [] ;;
   Ok {| doc_language := detected_language;
         doc_segments := segments;
         doc_speakers := Some [];
         doc_confidence := None |})%result.

(** The parsed command line, lines 112-127. *)
Record Args : Type := {
  input : string;
  output : option string;
  model : string;
  language : option string;
  device : string;
  no_diarization : bool;
  min_speakers : option Z;
  max_speakers : option Z;
  hf_token : option string
}.

Section Script.
Variable os : os_lib.
Variable whisper : whisper_lib.
Local Open Scope M_scope.

(** [SimpleWhisperTranscriber]: the object holds the model. *)
Record SimpleWhisperTranscriber : Type := {
  self_model : whisper_model whisper
}.

(** [__init__], lines 19-28. *)
Definition init (model_size : string) : M SimpleWhisperTranscriber :=
  eprint (Printed ("Loading Whisper model '" ++ model_size ++ "'...")) ;;
  m <- call (whisper_load_model whisper model_size) ;;
  eprint (Printed "Model loaded successfully") ;;
  ret {| self_model := m |}.

(** [transcribe], lines 30-85. *)
Definition transcribe (self : SimpleWhisperTranscriber)
    (audio_path : string) (language : option string) : M Document :=
  eprint (Printed ("Processing: " ++ audio_path)) ;;
  eprint (Printed "Transcribing audio...") ;;
  result_ <- call (whisper_transcribe whisper (self_model self)
                     audio_path language) ;;
  let detected_language := get (raw_language result_) "unknown" in
  eprint (Printed ("Detected language: " ++ detected_language)) ;;
  call (format_output detected_language result_).

(** [process_file], lines 87-109. *)
Definition process_file (self : SimpleWhisperTranscriber)
    (input_path output_path : string) (language : option string) : M bool :=
  try_except
    (result_ <- transcribe self input_path language ;;
     dump os output_path result_ ;;
     eprint (Printed ("Transcription saved to: " ++ output_path)) ;;
     print (JsonDocument result_) ;;
     ret true)
    (fun e =>
       print (JsonError (str_exn e) false) ;;
       ret false).

(** [main], lines 111-144, from the parsed arguments on. *)
Definition main (args : Args) : M Z :=
  output_path <-
    (if negb (truthy (output args))
     then call (with_suffix os (input args) ".json")
     else ret (get (output args) "")) ;;
  transcriber <- init (model args) ;;
  success <- process_file transcriber (input args) output_path
               (language args) ;;
  ret (if success then 0%Z else 1%Z).

End Script.

End whisper_simple.

(* ================================================================== *)
(** * scripts/whisperx_processor.py *)

Module whisperx_processor.

(** The dictionary appended at lines 101-108; [n] is
    [len(transcription["segments"])]. *)
Definition seg_data (n : nat) (segment : RawSegment) : result Segment :=
  (start <- subscript "start" (raw_start segment) ;;
   end_ <- subscript "end" (raw_end segment) ;;
   text <- subscript "text" (raw_text segment) ;;
   Ok {| seg_id := Some n;
         seg_start := start;
         seg_end := end_;
         seg_text := strip text;
         seg_confidence := get (raw_score segment) 0;
         seg_speaker := None;
         seg_words := Some (HandedOn (get (raw_words segment) [])) |})%result.

(** The body of the loop of lines 100-108, on [transcription["segments"]]. *)
Definition loop_body (segments : list Segment) (segment : RawSegment)
  : result (list Segment) :=
  (seg <- seg_data (List.length segments) segment ;;
   Ok (segments ++ [seg]))%result.

(** Lines 110-115: the overall confidence. *)
Definition overall_confidence (segments : list Segment) : Q :=
  match segments with
  | [] => 0
  | _ :: _ => sum (map seg_confidence segments) / len segments
  end.

(** Lines 95-115 of [transcribe_audio]: the document built from the result
    of [whisperx.align]. *)
Definition format_output (result_ : RawResult) : result Document :=
  (let language := get (raw_language result_) "unknown" in
   items <- subscript "segments" (raw_segments result_) ;;
   segments <- for_each loop_body items [] ;;
   Ok {| doc_language := language;
         doc_segments := segments;
         doc_speakers := None;
         doc_confidence := Some (overall_confidence segments) |})%result.

(** The parsed command line, lines 139-149. *)
Record Args : Type := {
  audio_path : string;
  model : string;
  language : option string;
  device : string;
  compute_type : string;
  batch_size : nat;
  output_dir : option string;
  json : bool
}.

Section Script.
Variable os : os_lib.
Variable whisperx : whisperx_lib.
Local Open Scope M_scope.

(** [transcribe_audio], lines 24-136.  The parent of the output path is
    the output directory.  The clean-up of lines 125-130 has no effect on
    the streams or the files. *)
Definition transcribe_audio (audio_path model_size : string)
    (language : option string) (device compute_type : string)
    (batch_size : nat) (output_dir : option string) : M Document :=
  let fallback :=
    String.eqb device "cuda" && negb (cuda_is_available whisperx) in
  (if fallback
   then eprint (Log "WARNING"
                  "CUDA requested but not available, falling back to CPU")
   else ret tt) ;;
  let device := if fallback then "cpu" else device in
  let compute_type := if fallback then "float32" else compute_type in
  eprint (Log "INFO" ("Loading WhisperX model: " ++ model_size)) ;;
  eprint (Log "INFO" ("Using device: " ++ device ++ ", compute type: "
                        ++ compute_type)) ;;
  try_except
    (model <- call (load_model whisperx model_size device compute_type
                      language) ;;
     eprint (Log "INFO" ("Loading audio from: " ++ audio_path)) ;;
     audio <- call (load_audio whisperx audio_path) ;;
     eprint (Log "INFO" "Starting transcription...") ;;
     result_ <- call (model_transcribe whisperx model audio batch_size
                        language) ;;
     eprint (Log "INFO" "Aligning transcript...") ;;
     language_code <- call (subscript "language" (raw_language result_)) ;;
     ma <- call (load_align_model whisperx language_code device) ;;
     segments <- call (subscript "segments" (raw_segments result_)) ;;
     result_ <- call (align whisperx segments (fst ma) (snd ma) audio
                        device) ;;
     transcription <- call (format_output result_) ;;
     (if truthy output_dir
      then
        let output_path :=
          transcription_path os (get output_dir "") audio_path in
        makedirs os (get output_dir "") ;;
        dump os output_path transcription ;;
        eprint (Log "INFO" ("Saved transcription to: " ++ output_path))
      else ret tt) ;;
     ret transcription)
    (fun e =>
       eprint (Log "ERROR" ("Transcription failed: " ++ str_exn e)) ;;
       raise e).

(** [main], lines 138-172, from the parsed arguments on; [sys.exit(1)] in
    the handler ends the process with status 1. *)
Definition main (args : Args) : M Z :=
  try_except
    (result_ <- transcribe_audio (audio_path args) (model args)
                  (language args) (device args) (compute_type args)
                  (batch_size args) (output_dir args) ;;
     (if json args
      then print (JsonDocument result_)
      else
        print (Text "Transcription complete!") ;;
        print (Text ("Language: " ++ doc_language result_)) ;;
        print (TextSegments (List.length (doc_segments result_))) ;;
        confidence <- call (subscript "confidence"
                              (doc_confidence result_)) ;;
        print (TextConfidence confidence)) ;;
     ret 0%Z)
    (fun e =>
       eprint (Log "ERROR" ("Error: " ++ str_exn e)) ;;
       ret 1%Z).

End Script.

End whisperx_processor.

(* ================================================================== *)
(** * scripts/whisperx_service.py *)

Module whisperx_service.

(** The dictionary of one word, lines 173-178. *)
Definition word_data (word : RawWord) : result Word :=
  (w <- subscript "word" (raw_word_word word) ;;
   start <- subscript "start" (raw_word_start word) ;;
   end_ <- subscript "end" (raw_word_end word) ;;
   Ok {| word_word := w;
         word_start := start;
         word_end := end_;
         word_confidence := get (raw_word_confidence word) 1 |})%result.

(** Lines 161-168: [speaker_stats] after one more segment of [speaker_id]
    that lasts [duration]. *)
Definition track (speaker_id : string) (duration : Q)
    (speaker_stats : dict SpeakerStat) : dict SpeakerStat :=
  let speaker_stats :=
    if negb (dict_in speaker_id speaker_stats)
    then dict_add speaker_id
           {| spk_id := speaker_id; spk_segments := 0;
              spk_total_duration := 0 |} speaker_stats
    else speaker_stats in
  let speaker_stats :=
    dict_update speaker_id
      (fun st => {| spk_id := spk_id st;
                    spk_segments := spk_segments st + 1;
                    spk_total_duration := spk_total_duration st |})
      speaker_stats in
  dict_update speaker_id
    (fun st => {| spk_id := spk_id st;
                  spk_segments := spk_segments st;
                  spk_total_duration := spk_total_duration st + duration |})
    speaker_stats.

(** The state of the loop of lines 147-182: [output["segments"]] and
    [speaker_stats]. *)
Definition loop_state : Type := (list Segment * dict SpeakerStat)%type.

Definition loop_body (st : loop_state) (segment : RawSegment)
  : result loop_state :=
  (let '(segments, speaker_stats) := st in
   start <- subscript "start" (raw_start segment) ;;
   end_ <- subscript "end" (raw_end segment) ;;
   text <- subscript "text" (raw_text segment) ;;
   let confidence := get (raw_confidence segment) 1 in
   let speaker_stats :=
     match raw_speaker segment with
     | Some speaker_id => track speaker_id (end_ - start) speaker_stats
     | None => speaker_stats
     end in
   words <-
     match raw_words segment with
     | Some ws => ws' <- comprehension word_data ws ;; Ok (Some (Built ws'))
     | None => Ok None
     end ;;
   Ok (segments ++
         [{| seg_id := None;
             seg_start := start;
             seg_end := end_;
             seg_text := strip text;
             seg_confidence := confidence;
             seg_speaker := raw_speaker segment;
             seg_words := words |}],
       speaker_stats))%result.

(** Lines 138-185 of [transcribe]: the document built from the aligned
    and, with diarization, speaker-labelled result. *)
Definition format_output (detected_language : string) (result_ : RawResult)
  : result Document :=
  (items <- subscript "segments" (raw_segments result_) ;;
   st <- for_each loop_body items ([], []) ;;
   Ok {| doc_language := detected_language;
         doc_segments := fst st;
         doc_speakers := Some (values (snd st));
         doc_confidence := None |})%result.

(** The parsed command line, lines 219-230. *)
Record Args : Type := {
  input : string;
  output : option string;
  model : string;
  device : string;
  language : option string;
  no_diarization : bool;
  min_speakers : option Z;
  max_speakers : option Z;
  hf_token : option string
}.

Section Script.
Variable os : os_lib.
Variable whisperx : whisperx_lib.
Local Open Scope M_scope.

(** [WhisperXTranscriber]: the attributes of the object. *)
Record WhisperXTranscriber : Type := {
  self_device : string;
  self_compute_type : string;
  self_model : Model whisperx;
  self_diarize_model : option (Diarizer whisperx)
}.

(** [__init__], lines 21-55. *)
Definition init (model_size device compute_type : string)
  : M WhisperXTranscriber :=
  let device :=
    if String.eqb device "auto"
    then if cuda_is_available whisperx then "cuda" else "cpu"
    else device in
  let compute_type :=
    if String.eqb device "cpu" then "int8" else compute_type in
  eprint (Printed ("Loading WhisperX model '" ++ model_size ++ "' on "
                   ++ device ++ "...")) ;;
  m <- call (load_model whisperx model_size device compute_type None) ;;
  ret {| self_device := device;
         self_compute_type := compute_type;
         self_model := m;
         self_diarize_model := None |}.

(** [load_diarization_model], lines 57-72: the object afterwards, and the
    value returned. *)
Definition load_diarization_model (self : WhisperXTranscriber)
    (hf_token : option string) : M (WhisperXTranscriber * bool) :=
  let hf_token :=
    if negb (truthy hf_token) then getenv os "HF_TOKEN" else hf_token in
  if negb (truthy hf_token)
  then
    eprint (Printed "Warning: No Hugging Face token provided. Speaker diarization will be disabled.") ;;
    ret (self, false)
  else
    try_except
      (eprint (Printed "Loading speaker diarization model...") ;;
       d <- call (DiarizationPipeline whisperx (get hf_token "")
                    (self_device self)) ;;
       ret ({| self_device := self_device self;
               self_compute_type := self_compute_type self;
               self_model := self_model self;
               self_diarize_model := Some d |}, true))
      (fun e =>
         eprint (Printed ("Failed to load diarization model: "
                          ++ str_exn e)) ;;
         ret (self, false)).

(** [transcribe], lines 74-192.  The clean-up of lines 187-190 has no
    effect on the streams or the files. *)
Definition transcribe (self : WhisperXTranscriber) (audio_path : string)
    (language : option string) (enable_diarization : bool)
    (min_speakers max_speakers : option Z) : M Document :=
  eprint (Printed ("Processing: " ++ audio_path)) ;;
  eprint (Printed "Progress: 10%") ;;
  audio <- call (load_audio whisperx audio_path) ;;
  eprint (Printed "Progress: 20%") ;;
  eprint (Printed "Transcribing audio...") ;;
  eprint (Printed "Progress: 30%") ;;
  result_ <- call (model_transcribe whisperx (self_model self) audio 16
                     language) ;;
  eprint (Printed "Progress: 70%") ;;
  let detected_language := get (raw_language result_) "unknown" in
  eprint (Printed ("Detected language: " ++ detected_language)) ;;
  eprint (Printed "Aligning transcript...") ;;
  eprint (Printed "Progress: 75%") ;;
  ma <- call (load_align_model whisperx detected_language
                (self_device self)) ;;
  eprint (Printed "Progress: 80%") ;;
  segments <- call (subscript "segments" (raw_segments result_)) ;;
  result_ <- call (align whisperx segments (fst ma) (snd ma) audio
                     (self_device self)) ;;
  eprint (Printed "Progress: 90%") ;;
  result_ <-
    match self_diarize_model self with
    | Some diarize_model =>
        if enable_diarization
        then
          eprint (Printed "Performing speaker diarization...") ;;
          diarize_segments <- call (diarize whisperx diarize_model audio
                                      min_speakers max_speakers) ;;
          call (assign_word_speakers whisperx diarize_segments result_)
        else ret result_
    | None => ret result_
    end ;;
  call (format_output detected_language result_).

(** [process_file], lines 194-216. *)
Definition process_file (self : WhisperXTranscriber)
    (input_path output_path : string) (language : option string)
    (enable_diarization : bool) (min_speakers max_speakers : option Z)
  : M bool :=
  try_except
    (result_ <- transcribe self input_path language enable_diarization
                  min_speakers max_speakers ;;
     dump os output_path result_ ;;
     eprint (Printed ("Transcription saved to: " ++ output_path)) ;;
     print (JsonDocument result_) ;;
     ret true)
    (fun e =>
       print (JsonError (str_exn e) false) ;;
       ret false).

(** [main], lines 218-257, from the parsed arguments on.  The constructor
    is called with its default [compute_type]. *)
Definition main (args : Args) : M Z :=
  output_path <-
    (if negb (truthy (output args))
     then call (with_suffix os (input args) ".json")
     else ret (get (output args) "")) ;;
  transcriber <- init (model args) (device args) "float16" ;;
  transcriber <-
    (if negb (no_diarization args)
     then
       loaded <- load_diarization_model transcriber (hf_token args) ;;
       ret (fst loaded)
     else ret transcriber) ;;
  success <- process_file transcriber (input args) output_path
               (language args) (negb (no_diarization args))
               (min_speakers args) (max_speakers args) ;;
  ret (if success then 0%Z else 1%Z).

End Script.

End whisperx_service.

(* ================================================================== *)
(** * Vocabulary of the properties *)

(** The keys every script subscripts in a segment: [start], [end] and
    [text]. *)
Definition complete_segment (s : RawSegment) : bool :=
  contains (raw_start s) && contains (raw_end s) && contains (raw_text s).

(** The keys [whisperx_service] subscripts in a word. *)
Definition complete_word (w : RawWord) : bool :=
  contains (raw_word_word w) && contains (raw_word_start w)
  && contains (raw_word_end w).

(** A complete segment whose words, if it has any, are complete. *)
Definition complete_with_words (s : RawSegment) : bool :=
  complete_segment s
  && match raw_words s with
     | Some ws => forallb complete_word ws
     | None => true
     end.

(** The arithmetic mean of a list of numbers. *)
Definition arithmetic_mean (xs : list Q) : Q :=
  fold_right Qplus 0 xs / inject_Z (Z.of_nat (List.length xs)).

(** The segment carries the speaker label [id]. *)
Definition carries (id : string) (s : RawSegment) : bool :=
  match raw_speaker s with
  | Some id' => String.eqb id' id
  | None => false
  end.

(** [end - start] of a segment. *)
Definition duration (s : RawSegment) : Q :=
  get (raw_end s) 0 - get (raw_start s) 0.

(** The sum of the durations of a list of segments. *)
Definition total_duration (ss : list RawSegment) : Q :=
  fold_right Qplus 0 (map duration ss).

(** The position of the first segment that carries [id]; the length of the
    list when none does. *)
Fixpoint first_appearance (id : string) (ss : list RawSegment) : nat :=
  match ss with
  | [] => 0
  | s :: rest => if carries id s then 0 else S (first_appearance id rest)
  end.

(** A text is trimmed: it neither starts nor ends with white space. *)
Definition trimmed (s : string) : Prop :=
  (forall c rest, s = String c rest -> isspace c = false)
  /\ (forall front c, s = (front ++ String c EmptyString)%string
                      -> isspace c = false).

(** Every character of the text is white space. *)
Fixpoint blank (s : string) : bool :=
  match s with
  | EmptyString => true
  | String c rest => isspace c && blank rest
  end.

(** [out] is [text] without the white space at its two ends. *)
Definition trims (text out : string) : Prop :=
  out = strip text
  /\ (exists l r, text = (l ++ out ++ r)%string
                  /\ blank l = true /\ blank r = true)
  /\ trimmed out.

(** The segment [seg] of a document has the bounds and the stripped text
    of the raw segment [s]. *)
Definition derived_from (s : RawSegment) (seg : Segment) : Prop :=
  raw_start s = Some (seg_start seg)
  /\ raw_end s = Some (seg_end seg)
  /\ exists text, raw_text s = Some text /\ seg_text seg = strip text.

(** A statement leaves the standard output and the files alone. *)
Definition quiet {A} (m : M A) : Prop :=
  forall w,
    stdout (snd (m w)) = stdout w /\ files (snd (m w)) = files w.

(** The total functions the loops compute on complete segments. *)
Definition simple_segment (s : RawSegment) : Segment :=
  {| seg_id := None;
     seg_start := get (raw_start s) 0;
     seg_end := get (raw_end s) 0;
     seg_text := strip (get (raw_text s) "");
     seg_confidence := 1;
     seg_speaker := None;
     seg_words := option_map
                    (fun ws => Built (map whisper_simple.word_data ws))
                    (raw_words s) |}.

Definition processor_segment (n : nat) (s : RawSegment) : Segment :=
  {| seg_id := Some n;
     seg_start := get (raw_start s) 0;
     seg_end := get (raw_end s) 0;
     seg_text := strip (get (raw_text s) "");
     seg_confidence := get (raw_score s) 0;
     seg_speaker := None;
     seg_words := Some (HandedOn (get (raw_words s) [])) |}.

Fixpoint numbered (n : nat) (items : list RawSegment) : list Segment :=
  match items with
  | [] => []
  | s :: rest => processor_segment n s :: numbered (S n) rest
  end.

Definition service_word (w : RawWord) : Word :=
  {| word_word := get (raw_word_word w) "";
     word_start := get (raw_word_start w) 0;
     word_end := get (raw_word_end w) 0;
     word_confidence := get (raw_word_confidence w) 1 |}.

Definition service_segment (s : RawSegment) : Segment :=
  {| seg_id := None;
     seg_start := get (raw_start s) 0;
     seg_end := get (raw_end s) 0;
     seg_text := strip (get (raw_text s) "");
     seg_confidence := get (raw_confidence s) 1;
     seg_speaker := raw_speaker s;
     seg_words := option_map (fun ws => Built (map service_word ws))
                    (raw_words s) |}.

(** [speaker_stats] after one more segment. *)
Definition tracked (d : dict SpeakerStat) (s : RawSegment)
  : dict SpeakerStat :=
  match raw_speaker s with
  | Some id => whisperx_service.track id (duration s) d
  | None => d
  end.

(** ** Runs of the scripts *)

(** The device and the compute type [WhisperXTranscriber.__init__] settles
    on. *)
Definition resolved_device (whisperx : whisperx_lib) (device : string)
  : string :=
  if String.eqb device "auto"
  then if cuda_is_available whisperx then "cuda" else "cpu"
  else device.

Definition resolved_compute_type (whisperx : whisperx_lib)
    (device compute_type : string) : string :=
  if String.eqb (resolved_device whisperx device) "cpu"
  then "int8" else compute_type.

(** The token [load_diarization_model] works with: the argument, or the
    environment variable when the argument is missing or empty. *)
Definition effective_token (os : os_lib) (hf_token : option string)
  : option string :=
  if negb (truthy hf_token) then getenv os "HF_TOKEN" else hf_token.

(** An external call inside [WhisperXTranscriber.transcribe] raises [e],
    the calls before it having returned. *)
Inductive capability_raises (whisperx : whisperx_lib)
    (self : whisperx_service.WhisperXTranscriber whisperx)
    (audio_path : string) (language : option string)
    (enable_diarization : bool) (min_speakers max_speakers : option Z)
    (e : exn) : Prop :=
| audio_load_raises :
    load_audio whisperx audio_path = Raise e ->
    capability_raises self audio_path language enable_diarization
      min_speakers max_speakers e
| transcription_raises audio :
    load_audio whisperx audio_path = Ok audio ->
    model_transcribe whisperx (whisperx_service.self_model self) audio 16
      language = Raise e ->
    capability_raises self audio_path language enable_diarization
      min_speakers max_speakers e
| align_model_load_raises audio result_ :
    load_audio whisperx audio_path = Ok audio ->
    model_transcribe whisperx (whisperx_service.self_model self) audio 16
      language = Ok result_ ->
    load_align_model whisperx (get (raw_language result_) "unknown")
      (whisperx_service.self_device self) = Raise e ->
    capability_raises self audio_path language enable_diarization
      min_speakers max_speakers e
| alignment_raises audio result_ ma segments :
    load_audio whisperx audio_path = Ok audio ->
    model_transcribe whisperx (whisperx_service.self_model self) audio 16
      language = Ok result_ ->
    load_align_model whisperx (get (raw_language result_) "unknown")
      (whisperx_service.self_device self) = Ok ma ->
    raw_segments result_ = Some segments ->
    align whisperx segments (fst ma) (snd ma) audio
      (whisperx_service.self_device self) = Raise e ->
    capability_raises self audio_path language enable_diarization
      min_speakers max_speakers e
| diarization_raises audio result_ ma segments aligned diarize_model :
    load_audio whisperx audio_path = Ok audio ->
    model_transcribe whisperx (whisperx_service.self_model self) audio 16
      language = Ok result_ ->
    load_align_model whisperx (get (raw_language result_) "unknown")
      (whisperx_service.self_device self) = Ok ma ->
    raw_segments result_ = Some segments ->
    align whisperx segments (fst ma) (snd ma) audio
      (whisperx_service.self_device self) = Ok aligned ->
    whisperx_service.self_diarize_model self = Some diarize_model ->
    enable_diarization = true ->
    diarize whisperx diarize_model audio min_speakers max_speakers
    = Raise e ->
    capability_raises self audio_path language enable_diarization
      min_speakers max_speakers e
| speaker_assignment_raises audio result_ ma segments aligned diarize_model
    diarize_segments :
    load_audio whisperx audio_path = Ok audio ->
    model_transcribe whisperx (whisperx_service.self_model self) audio 16
      language = Ok result_ ->
    load_align_model whisperx (get (raw_language result_) "unknown")
      (whisperx_service.self_device self) = Ok ma ->
    raw_segments result_ = Some segments ->
    align whisperx segments (fst ma) (snd ma) audio
      (whisperx_service.self_device self) = Ok aligned ->
    whisperx_service.self_diarize_model self = Some diarize_model ->
    enable_diarization = true ->
    diarize whisperx diarize_model audio min_speakers max_speakers
    = Ok diarize_segments ->
    assign_word_speakers whisperx diarize_segments aligned = Raise e ->
    capability_raises self audio_path language enable_diarization
      min_speakers max_speakers e.

(** The object [whisperx_service.main] hands to [process_file] when
    [load_model] has returned [m]. *)
Definition built_transcriber (os : os_lib) (whisperx : whisperx_lib)
    (args : whisperx_service.Args) (m : Model whisperx)
  : whisperx_service.WhisperXTranscriber whisperx :=
  let device := resolved_device whisperx (whisperx_service.device args) in
  {| whisperx_service.self_device := device;
     whisperx_service.self_compute_type :=
       resolved_compute_type whisperx (whisperx_service.device args)
         "float16";
     whisperx_service.self_model := m;
     whisperx_service.self_diarize_model :=
       if whisperx_service.no_diarization args then None
       else
         let token := effective_token os (whisperx_service.hf_token args) in
         if truthy token
         then match DiarizationPipeline whisperx (get token "") device with
              | Ok d => Some d
              | Raise _ => None
              end
         else None |}.

(** The path of the output file: the argument, or the input path with the
    suffix [.json]. *)
Definition resolved_output (os : os_lib) (input : string)
    (output : option string) : result string :=
  if negb (truthy output) then with_suffix os input ".json"
  else Ok (get output "").

(** The run ends with status 1 after one line on the standard output, the
    error document of [e], and without a file. *)
Definition reported (e : exn) (run : Z * World) : Prop :=
  fst run = 1%Z
  /\ stdout (snd run) = [JsonError (str_exn e) false]
  /\ files (snd run) = [].

(** The run ends with status 1, with nothing on the standard output and
    without a file. *)
Definition silent_failure (run : Z * World) : Prop :=
  fst run = 1%Z /\ stdout (snd run) = [] /\ files (snd run) = [].

(** The standard output of the run is at most one line, a JSON object:
    an error document, with status 1 and no file, or a document that
    satisfies [P], with status 0 and the same document in one file. *)
Definition one_json_line (P : Document -> Prop) (run : Z * World) : Prop :=
  match stdout (snd run) with
  | [] => fst run = 1%Z /\ files (snd run) = []
  | [JsonError _ success] =>
      success = false /\ fst run = 1%Z /\ files (snd run) = []
  | [JsonDocument doc] =>
      fst run = 0%Z /\ P doc
      /\ exists path, files (snd run) = [(path, doc)]
  | _ => False
  end.

(** ** Speaker statistics *)

(** One more segment in the statistics of a speaker. *)
Definition bump (duration : Q) (st : SpeakerStat) : SpeakerStat :=
  {| spk_id := spk_id st;
     spk_segments := spk_segments st + 1;
     spk_total_duration := spk_total_duration st + duration |}.

(** The statistics of a speaker nobody has seen. *)
Definition fresh (id : string) : SpeakerStat :=
  {| spk_id := id; spk_segments := 0; spk_total_duration := 0 |}.

(** What the dictionary holds for [id] after the segments [items]. *)
Definition holds (id : string) (items : list RawSegment)
    (entry : option SpeakerStat) : Prop :=
  match entry with
  | None => filter (carries id) items = []
  | Some st =>
      spk_id st = id
      /\ spk_segments st = List.length (filter (carries id) items)
      /\ spk_total_duration st == total_duration (filter (carries id) items)
      /\ filter (carries id) items <> []
  end.

(** ** Scenarios *)

(** The segments of the scenarios. *)
Definition plain_segment (start end_ : Q) (text : string) (score : Q)
  : RawSegment :=
  {| raw_start := Some start; raw_end := Some end_; raw_text := Some text;
     raw_score := Some score; raw_confidence := None; raw_words := None;
     raw_speaker := None |}.

Definition hi_there : RawResult :=
  {| raw_language := Some "en";
     raw_segments := Some [plain_segment 0 1 "hi" (9 # 10);
                           plain_segment 1 2 "there" (7 # 10)] |}.

Definition no_segments : RawResult :=
  {| raw_language := Some "en"; raw_segments := Some [] |}.

(** A word as the libraries return it. *)
Definition spoken (w : string) (start end_ : Q)
    (probability confidence score : option Q) : RawWord :=
  {| raw_word_word := Some w; raw_word_start := Some start;
     raw_word_end := Some end_; raw_word_probability := probability;
     raw_word_confidence := confidence; raw_word_score := score;
     raw_word_speaker := None |}.

(** Three segments of two speakers; the first two with words. *)
Definition interview_segments : list RawSegment :=
  [ {| raw_start := Some 0; raw_end := Some 1; raw_text := Some " hi ";
       raw_score := Some (9 # 10); raw_confidence := None;
       raw_words := Some [spoken "hi" 0 1 None None (Some (1 # 2))];
       raw_speaker := Some "SPEAKER_00" |};
    {| raw_start := Some 1; raw_end := Some 2; raw_text := Some "there";
       raw_score := Some (7 # 10); raw_confidence := Some (1 # 2);
       raw_words :=
         Some [spoken "there" 1 2 (Some (3 # 4)) (Some (1 # 4)) None];
       raw_speaker := Some "SPEAKER_01" |};
    {| raw_start := Some 2; raw_end := Some (7 # 2); raw_text := Some "bye";
       raw_score := None; raw_confidence := None; raw_words := None;
       raw_speaker := Some "SPEAKER_00" |} ].

Definition interview : RawResult :=
  {| raw_language := Some "en"; raw_segments := Some interview_segments |}.

(** ** Libraries for the scenarios

    Every call returns what the scenario says, whatever its arguments. *)
Definition scenario_os : os_lib :=
  {| open_w := fun _ => Ok tt;
     with_suffix := fun path suffix => Ok (path ++ suffix)%string;
     transcription_path :=
       fun dir path => (dir ++ "/" ++ path ++ "_transcription.json")%string;
     mkdir := fun _ => Ok tt;
     getenv := fun _ => None |}.

Definition scenario_whisper (loaded : result unit)
    (transcribed : result RawResult) : whisper_lib :=
  {| whisper_model := unit;
     whisper_load_model := fun _ => loaded;
     whisper_transcribe := fun _ _ _ => transcribed |}.

Definition scenario_whisperx (loaded audio : result unit)
    (transcribed aligned : result RawResult) (pipeline : result unit)
  : whisperx_lib :=
  {| Model := unit; Audio := unit; AlignModel := unit; Metadata := unit;
     Diarizer := unit; DiarizeSegments := unit;
     cuda_is_available := false;
     load_model := fun _ _ _ _ => loaded;
     load_audio := fun _ => audio;
     model_transcribe := fun _ _ _ _ => transcribed;
     load_align_model := fun _ _ => Ok (tt, tt);
     align := fun _ _ _ _ _ => aligned;
     DiarizationPipeline := fun _ _ => pipeline;
     diarize := fun _ _ _ _ => Ok tt;
     assign_word_speakers := fun _ r => Ok r |}.

Definition simple_args : whisper_simple.Args :=
  {| whisper_simple.input := "talk.wav";
     whisper_simple.output := Some "talk.json";
     whisper_simple.model := "base";
     whisper_simple.language := None;
     whisper_simple.device := "auto";
     whisper_simple.no_diarization := false;
     whisper_simple.min_speakers := None;
     whisper_simple.max_speakers := None;
     whisper_simple.hf_token := None |}.

Definition processor_args : whisperx_processor.Args :=
  {| whisperx_processor.audio_path := "talk.wav";
     whisperx_processor.model := "base";
     whisperx_processor.language := None;
     whisperx_processor.device := "cpu";
     whisperx_processor.compute_type := "float32";
     whisperx_processor.batch_size := 16;
     whisperx_processor.output_dir := Some "out";
     whisperx_processor.json := true |}.

Definition service_args : whisperx_service.Args :=
  {| whisperx_service.input := "talk.wav";
     whisperx_service.output := Some "talk.json";
     whisperx_service.model := "large-v2";
     whisperx_service.device := "auto";
     whisperx_service.language := None;
     whisperx_service.no_diarization := false;
     whisperx_service.min_speakers := None;
     whisperx_service.max_speakers := None;
     whisperx_service.hf_token := None |}.

(* ================================================================== *)
(** * Vocabulary of the further properties *)

(** ** Missing keys *)

(** The first of [start], [end], [text] a segment lacks, in the order in
    which the scripts subscript them. *)
Definition missing_key (s : RawSegment) : option string :=
  match raw_start s, raw_end s, raw_text s with
  | None, _, _ => Some "start"
  | Some _, None, _ => Some "end"
  | Some _, Some _, None => Some "text"
  | Some _, Some _, Some _ => None
  end.

(** The first of [word], [start], [end] a word lacks. *)
Definition missing_word_key (w : RawWord) : option string :=
  match raw_word_word w, raw_word_start w, raw_word_end w with
  | None, _, _ => Some "word"
  | Some _, None, _ => Some "start"
  | Some _, Some _, None => Some "end"
  | Some _, Some _, Some _ => None
  end.

(** The first answer of [f] along a list. *)
Fixpoint first_of {A} (f : A -> option string) (l : list A)
  : option string :=
  match l with
  | [] => None
  | x :: rest =>
      match f x with
      | Some k => Some k
      | None => first_of f rest
      end
  end.

(** The first key a segment lacks when its words are looked at too: its
    own keys come first, then those of its words in order. *)
Definition missing_key_with_words (s : RawSegment) : option string :=
  match missing_key s with
  | Some k => Some k
  | None => first_of missing_word_key (get (raw_words s) [])
  end.

(** ** Totals of the speaker statistics *)




(** ** Further scenarios *)

(** The interview as [whisperx.align] returns it: without a language. *)
Definition aligned_interview : RawResult :=
  {| raw_language := None; raw_segments := Some interview_segments |}.

(** A result whose second segment has a word without time stamps, as
    WhisperX returns for words it cannot align. *)
Definition unaligned_word : RawResult :=
  {| raw_language := Some "en";
     raw_segments :=
       Some [ {| raw_start := Some 0; raw_end := Some 1;
                 raw_text := Some "in";
                 raw_score := None; raw_confidence := None;
                 raw_words :=
                   Some [spoken "in" 0 1 None None (Some (1 # 2))];
                 raw_speaker := None |};
              {| raw_start := Some 1; raw_end := Some 2;
                 raw_text := Some "2024";
                 raw_score := None; raw_confidence := None;
                 raw_words :=
                   Some [ {| raw_word_word := Some "2024";
                             raw_word_start := None;
                             raw_word_end := None;
                             raw_word_probability := None;
                             raw_word_confidence := None;
                             raw_word_score := None;
                             raw_word_speaker := None |} ];
                 raw_speaker := None |} ] |}.

Definition quiet_service_args : whisperx_service.Args :=
  {| whisperx_service.input := "talk.wav";
     whisperx_service.output := Some "talk.json";
     whisperx_service.model := "large-v2";
     whisperx_service.device := "auto";
     whisperx_service.language := None;
     whisperx_service.no_diarization := true;
     whisperx_service.min_speakers := Some 2%Z;
     whisperx_service.max_speakers := Some 4%Z;
     whisperx_service.hf_token := Some "hf_secret" |}.

Definition token_service_args : whisperx_service.Args :=
  {| whisperx_service.input := "talk.wav";
     whisperx_service.output := Some "talk.json";
     whisperx_service.model := "large-v2";
     whisperx_service.device := "auto";
     whisperx_service.language := None;
     whisperx_service.no_diarization := false;
     whisperx_service.min_speakers := Some 2%Z;
     whisperx_service.max_speakers := Some 4%Z;
     whisperx_service.hf_token := Some "hf_secret" |}.

(* ================================================================== *)
(** * scripts/test-whisperx-speed.py *)

From Stdlib Require DecimalString.

(** A [for] loop of statements: the state goes from one iteration to the
    next, and an exception of the body ends the loop. *)
Fixpoint for_each_M {S A} (body : S -> A -> M S) (items : list A) (s : S)
  : M S :=
  match items with
  | [] => ret s
  | x :: rest => bind (body s x) (for_each_M body rest)
  end.

(** [str(n)] of a natural number. *)
Definition str_int (n : nat) : string :=
  DecimalString.NilZero.string_of_uint (Nat.to_uint n).

Module test_whisperx_speed.

(** What the script asks of [time] and of the formatting of floats. *)
Record python_lib : Type := {
  (** [time.time()]: the reading number [n] of the clock *)
  time : nat -> Q;
  (** [f"{x:.2f}"] *)
  format_2f : Q -> string
}.

(** An entry of [configs], lines 12-16. *)
Record Config : Type := {
  config_model : string;
  config_compute : string;
  config_batch : nat
}.

Definition audio_file : string :=
  "/Users/vp/SAZ Projects/transcriber-cutter/test-assets/test-audio.wav".

Definition configs : list Config :=
  [ {| config_model := "base"; config_compute := "int8";
       config_batch := 16 |};
    {| config_model := "small"; config_compute := "int8";
       config_batch := 32 |};
    {| config_model := "medium"; config_compute := "int8";
       config_batch := 24 |} ].

(** The line feed that opens two of the messages. *)
Definition newline : string := String (ascii_of_nat 10) EmptyString.

(** Line 19. *)
Definition announcement (config : Config) : stdout_line :=
  Text (newline ++ "Testing: Model=" ++ config_model config
          ++ ", Compute=" ++ config_compute config
          ++ ", Batch=" ++ str_int (config_batch config)).

Section Script.
Variable python : python_lib.
Variable whisperx : whisperx_lib.
Local Open Scope M_scope.

(** The body of the loop, lines 19-44; the state is the number of readings
    of the clock so far. *)
Definition loop_body (readings : nat) (config : Config) : M nat :=
  print (announcement config) ;;
  try_except
    (let start := time python readings in
     model <- call (load_model whisperx (config_model config) "cpu"
                      (config_compute config) None) ;;
     audio <- call (load_audio whisperx audio_file) ;;
     result_ <- call (model_transcribe whisperx model audio
                        (config_batch config) None) ;;
     let elapsed := time python (S readings) - start in
     print (Text ("  Time: " ++ format_2f python elapsed ++ "s")) ;;
     print (Text ("  Language: " ++ get (raw_language result_) "unknown")) ;;
     ret (S (S readings)))
    (fun e =>
       print (Text ("  Error: " ++ str_exn e)) ;;
       ret (S readings)).

(** The script, lines 7-46. *)
Definition script : M Z :=
  print (Text "Testing WhisperX performance configurations for Apple Silicon...") ;;
  for_each_M loop_body configs 0%nat ;;
  print (Text (newline ++ "Recommendation: Use 'small' or 'medium' model with int8 for best speed/quality balance")) ;;
  ret 0%Z.

End Script.

End test_whisperx_speed.

(** The three calls the speed test makes for a configuration. *)
Definition attempt (whisperx : whisperx_lib)
    (config : test_whisperx_speed.Config) : result RawResult :=
  (model <- load_model whisperx (test_whisperx_speed.config_model config)
              "cpu" (test_whisperx_speed.config_compute config) None ;;
   audio <- load_audio whisperx test_whisperx_speed.audio_file ;;
   model_transcribe whisperx model audio
     (test_whisperx_speed.config_batch config) None)%result.

(** What the speed test prints after the announcement of [config], given
    what it printed for the time. *)
Definition reports (whisperx : whisperx_lib)
    (config : test_whisperx_speed.Config) (lines : list stdout_line)
  : Prop :=
  match attempt whisperx config with
  | Ok result_ =>
      exists seconds,
        lines = [Text ("  Time: " ++ seconds ++ "s");
                 Text ("  Language: "
                         ++ get (raw_language result_) "unknown")]
  | Raise e => lines = [Text ("  Error: " ++ str_exn e)]
  end.

(** The announcements, each followed by its lines. *)
Fixpoint blocks (configs : list test_whisperx_speed.Config)
    (outcomes : list (list stdout_line)) : list stdout_line :=
  match configs, outcomes with
  | config :: configs', lines :: outcomes' =>
      test_whisperx_speed.announcement config :: lines
        ++ blocks configs' outcomes'
  | _, _ => []
  end.

(* ================================================================== *)
(** * Properties *)

(* ================================================================== *)
(** * The loops on complete input *)

Lemma complete_segment_keys (s : RawSegment) :
  complete_segment s = true ->
  exists start end_ text,
    raw_start s = Some start /\ raw_end s = Some end_
    /\ raw_text s = Some text.
Proof.
  unfold complete_segment.
  destruct (raw_start s) as [a|], (raw_end s) as [b|], (raw_text s) as [c|];
    simpl; try discriminate.
  intros _. now exists a, b, c.
Qed.

Lemma simple_seg_data_complete (s : RawSegment) :
  complete_segment s = true ->
  whisper_simple.seg_data s = Ok (simple_segment s).
Proof.
  intros H. destruct (complete_segment_keys s H) as (a & b & c & Ha & Hb & Hc).
  unfold whisper_simple.seg_data, simple_segment.
  rewrite Ha, Hb, Hc. simpl. now destruct (raw_words s).
Qed.

Lemma simple_loop (items : list RawSegment) :
  forallb complete_segment items = true ->
  forall acc,
    for_each whisper_simple.loop_body items acc
    = Ok (acc ++ map simple_segment items).
Proof.
  induction items as [|s items IH]; simpl; intros H acc.
  - now rewrite app_nil_r.
  - apply andb_prop in H. destruct H as [Hs Hi].
    unfold whisper_simple.loop_body at 1.
    rewrite (simple_seg_data_complete s Hs). simpl.
    rewrite (IH Hi). now rewrite <- app_assoc.
Qed.

Lemma processor_seg_data_complete (n : nat) (s : RawSegment) :
  complete_segment s = true ->
  whisperx_processor.seg_data n s = Ok (processor_segment n s).
Proof.
  intros H. destruct (complete_segment_keys s H) as (a & b & c & Ha & Hb & Hc).
  unfold whisperx_processor.seg_data, processor_segment.
  now rewrite Ha, Hb, Hc.
Qed.

Lemma processor_loop (items : list RawSegment) :
  forallb complete_segment items = true ->
  forall acc,
    for_each whisperx_processor.loop_body items acc
    = Ok (acc ++ numbered (List.length acc) items).
Proof.
  induction items as [|s items IH]; simpl; intros H acc.
  - now rewrite app_nil_r.
  - apply andb_prop in H. destruct H as [Hs Hi].
    unfold whisperx_processor.loop_body at 1.
    rewrite (processor_seg_data_complete _ s Hs). simpl.
    rewrite (IH Hi). rewrite <- app_assoc. simpl.
    rewrite length_app. simpl. now rewrite Nat.add_1_r.
Qed.

Lemma service_words_complete (ws : list RawWord) :
  forallb complete_word ws = true ->
  comprehension whisperx_service.word_data ws = Ok (map service_word ws).
Proof.
  induction ws as [|w ws IH]; simpl; intros H; [reflexivity|].
  apply andb_prop in H. destruct H as [Hw Hws].
  rewrite (IH Hws).
  unfold complete_word in Hw. unfold whisperx_service.word_data, service_word.
  destruct (raw_word_word w), (raw_word_start w), (raw_word_end w);
    simpl in *; try discriminate. reflexivity.
Qed.

Lemma service_loop_body_complete (s : RawSegment) segments d :
  complete_with_words s = true ->
  whisperx_service.loop_body (segments, d) s
  = Ok (segments ++ [service_segment s], tracked d s).
Proof.
  unfold complete_with_words. intros H. apply andb_prop in H.
  destruct H as [Hs Hw].
  destruct (complete_segment_keys s Hs) as (a & b & c & Ha & Hb & Hc).
  unfold whisperx_service.loop_body, service_segment, tracked, duration.
  rewrite Ha, Hb, Hc. simpl.
  destruct (raw_words s) as [ws|]; simpl.
  - rewrite (service_words_complete ws Hw). reflexivity.
  - reflexivity.
Qed.

Lemma service_loop (items : list RawSegment) :
  forallb complete_with_words items = true ->
  forall segments d,
    for_each whisperx_service.loop_body items (segments, d)
    = Ok (segments ++ map service_segment items, fold_left tracked items d).
Proof.
  induction items as [|s items IH]; cbn [for_each forallb fold_left map];
    intros H segments d.
  - now rewrite app_nil_r.
  - apply andb_prop in H. destruct H as [Hs Hi].
    rewrite (service_loop_body_complete s segments d Hs).
    rewrite (IH Hi). now rewrite <- app_assoc.
Qed.

(* ================================================================== *)
(** * Document confidence *)

Lemma fold_left_Qplus (xs : list Q) :
  forall a, fold_left Qplus xs a == a + fold_right Qplus 0 xs.
Proof.
  induction xs as [|x xs IH]; intros a; simpl.
  - ring.
  - rewrite IH. ring.
Qed.

Lemma sum_fold_right (xs : list Q) : sum xs == fold_right Qplus 0 xs.
Proof.
  unfold sum. rewrite fold_left_Qplus. ring.
Qed.

Lemma numbered_confidence (items : list RawSegment) :
  forall n,
    map seg_confidence (numbered n items)
    = map (fun s => get (raw_score s) 0) items.
Proof.
  induction items as [|s items IH]; intros n; simpl; [reflexivity|].
  now rewrite IH.
Qed.

Lemma overall_confidence_mean (segments : list Segment) :
  segments <> [] ->
  whisperx_processor.overall_confidence segments
  == arithmetic_mean (map seg_confidence segments).
Proof.
  intros H. destruct segments as [|s segments]; [now elim H|].
  unfold whisperx_processor.overall_confidence, arithmetic_mean, len.
  rewrite sum_fold_right, length_map. reflexivity.
Qed.

Lemma processor_format_output_complete (result_ : RawResult) items :
  raw_segments result_ = Some items ->
  forallb complete_segment items = true ->
  whisperx_processor.format_output result_
  = Ok {| doc_language := get (raw_language result_) "unknown";
          doc_segments := numbered 0 items;
          doc_speakers := None;
          doc_confidence :=
            Some (whisperx_processor.overall_confidence
                    (numbered 0 items)) |}.
Proof.
  intros Hs Hc. unfold whisperx_processor.format_output.
  rewrite Hs. simpl. now rewrite (processor_loop items Hc).
Qed.

Lemma simple_format_output_complete lang (result_ : RawResult) :
  forallb complete_segment (get (raw_segments result_) []) = true ->
  whisper_simple.format_output lang result_
  = Ok {| doc_language := lang;
          doc_segments := map simple_segment (get (raw_segments result_) []);
          doc_speakers := Some [];
          doc_confidence := None |}.
Proof.
  intros Hc. unfold whisper_simple.format_output.
  now rewrite (simple_loop _ Hc).
Qed.

Lemma service_format_output_complete lang (result_ : RawResult) items :
  raw_segments result_ = Some items ->
  forallb complete_with_words items = true ->
  whisperx_service.format_output lang result_
  = Ok {| doc_language := lang;
          doc_segments := map service_segment items;
          doc_speakers := Some (values (fold_left tracked items []));
          doc_confidence := None |}.
Proof.
  intros Hs Hc. unfold whisperx_service.format_output.
  rewrite Hs. simpl. now rewrite (service_loop items Hc).
Qed.

(** The documents of [whisper_simple] and [whisperx_service] have no key
    ["confidence"]. *)
Lemma simple_no_confidence lang (result_ : RawResult) :
  match whisper_simple.format_output lang result_ with
  | Ok doc => doc_confidence doc = None /\ doc_speakers doc = Some []
  | Raise _ => True
  end.
Proof.
  unfold whisper_simple.format_output.
  destruct (for_each _ _ _); simpl; auto.
Qed.

Lemma service_no_confidence lang (result_ : RawResult) :
  match whisperx_service.format_output lang result_ with
  | Ok doc => doc_confidence doc = None
  | Raise _ => True
  end.
Proof.
  unfold whisperx_service.format_output.
  destruct (raw_segments result_); simpl; auto.
  destruct (for_each _ _ _); simpl; auto.
Qed.

(** The document of [whisperx_processor] has no key ["speakers"]. *)
Lemma processor_no_speakers (result_ : RawResult) :
  match whisperx_processor.format_output result_ with
  | Ok doc => doc_speakers doc = None
  | Raise _ => True
  end.
Proof.
  unfold whisperx_processor.format_output.
  destruct (raw_segments result_); simpl; auto.
  destruct (for_each _ _ _); simpl; auto.
Qed.

(** C1, as the scripts have it.  In [whisperx_processor], for every
    non-empty sequence of complete segments the document is built and its
    confidence is the arithmetic mean of the confidences of its segments,
    which are the scores of the input segments (0 without a score).  The
    documents of [whisper_simple] and [whisperx_service] have no
    confidence. *)
Theorem document_confidence_is_mean
    (result_ : RawResult) (items : list RawSegment)
    (Hsegments : raw_segments result_ = Some items)
    (Hnonempty : items <> [])
    (Hcomplete : forallb complete_segment items = true) :
  (exists doc c,
      whisperx_processor.format_output result_ = Ok doc
      /\ doc_confidence doc = Some c
      /\ map seg_confidence (doc_segments doc)
         = map (fun s => get (raw_score s) 0) items
      /\ c == arithmetic_mean (map seg_confidence (doc_segments doc)))
  /\ (forall lang,
         match whisper_simple.format_output lang result_ with
         | Ok doc => doc_confidence doc = None
         | Raise _ => False
         end)
  /\ (forall lang,
         match whisperx_service.format_output lang result_ with
         | Ok doc => doc_confidence doc = None
         | Raise _ => True
         end).
Proof.
  split; [|split].
  - eexists. eexists.
    rewrite (processor_format_output_complete result_ Hsegments Hcomplete).
    split; [reflexivity|]. simpl. split; [reflexivity|].
    split; [apply numbered_confidence|].
    apply overall_confidence_mean.
    destruct items; [now elim Hnonempty | discriminate].
  - intros lang. rewrite simple_format_output_complete.
    + reflexivity.
    + now rewrite Hsegments.
  - intros lang. apply service_no_confidence.
Qed.

Lemma document_confidence_is_mean_witness :
  raw_segments hi_there
  = Some [plain_segment 0 1 "hi" (9 # 10); plain_segment 1 2 "there" (7 # 10)]
  /\ (exists doc c,
         whisperx_processor.format_output hi_there = Ok doc
         /\ doc_confidence doc = Some c
         /\ map seg_confidence (doc_segments doc) = [9 # 10; 7 # 10]
         /\ c == arithmetic_mean (map seg_confidence (doc_segments doc))).
Proof.
  split; [reflexivity|].
  apply (document_confidence_is_mean hi_there (eq_refl _));
    [discriminate | reflexivity].
Defined.

(** C1 fails in [whisper_simple]: the document built from a non-empty
    sequence has no confidence at all. *)
Lemma document_confidence_counterexample :
  ~ (exists doc c,
        whisper_simple.format_output "en" hi_there = Ok doc
        /\ doc_confidence doc = Some c
        /\ c == arithmetic_mean (map seg_confidence (doc_segments doc))).
Proof.
  intros (doc & c & H & Hc & _).
  vm_compute in H. inversion H; subst. discriminate.
Qed.

(** C2, as the scripts have it.  For an empty sequence of segments the
    document of [whisperx_processor] has confidence 0, no segments and no
    key for the speakers; the documents of [whisperx_service] and of
    [whisper_simple] have no segments, an empty list of speakers and no
    confidence. *)
Theorem empty_input_document (language : option string) (detected : string) :
  whisperx_processor.format_output
    {| raw_language := language; raw_segments := Some [] |}
  = Ok {| doc_language := get language "unknown"; doc_segments := [];
          doc_speakers := None; doc_confidence := Some 0 |}
  /\ whisperx_service.format_output detected
       {| raw_language := language; raw_segments := Some [] |}
     = Ok {| doc_language := detected; doc_segments := [];
             doc_speakers := Some []; doc_confidence := None |}
  /\ whisper_simple.format_output detected
       {| raw_language := language; raw_segments := Some [] |}
     = Ok {| doc_language := detected; doc_segments := [];
             doc_speakers := Some []; doc_confidence := None |}
  /\ whisper_simple.format_output detected
       {| raw_language := language; raw_segments := None |}
     = Ok {| doc_language := detected; doc_segments := [];
             doc_speakers := Some []; doc_confidence := None |}.
Proof.
  repeat split.
Qed.

(** C2 fails in each script: no document has the confidence 0 together
    with an empty list of speakers. *)
Lemma empty_input_counterexample :
  ~ (exists doc,
        whisperx_processor.format_output no_segments = Ok doc
        /\ doc_confidence doc = Some 0 /\ doc_segments doc = []
        /\ doc_speakers doc = Some [])
  /\ ~ (exists doc,
           whisperx_service.format_output "en" no_segments = Ok doc
           /\ doc_confidence doc = Some 0 /\ doc_segments doc = []
           /\ doc_speakers doc = Some []).
Proof.
  split; intros (doc & H & Hc & _ & Hs); vm_compute in H;
    inversion H; subst; discriminate.
Qed.

(** C9, as the scripts have it.  For the two segments "hi" (score 0.9) and
    "there" (score 0.7) without speaker labels, the document of
    [whisperx_processor] has confidence 0.8 and no key for the speakers; the
    document of [whisperx_service] has an empty list of speakers, no
    confidence, and the confidence 1 in both segments. *)
Theorem hi_there_document :
  (exists doc c,
      whisperx_processor.format_output hi_there = Ok doc
      /\ doc_confidence doc = Some c /\ c == 8 # 10
      /\ doc_speakers doc = None)
  /\ (exists doc,
         whisperx_service.format_output "en" hi_there = Ok doc
         /\ doc_speakers doc = Some [] /\ doc_confidence doc = None
         /\ map seg_confidence (doc_segments doc) = [1; 1]).
Proof.
  split.
  - eexists. eexists. split; [vm_compute; reflexivity|]. simpl.
    split; [reflexivity|]. split; reflexivity.
  - eexists. split; [vm_compute; reflexivity|]. simpl. repeat split.
Qed.

(** C9 fails in each script: no document has the confidence 0.8 together
    with an empty list of speakers. *)
Lemma hi_there_counterexample :
  ~ (exists doc c,
        whisperx_processor.format_output hi_there = Ok doc
        /\ doc_confidence doc = Some c /\ c == 8 # 10
        /\ doc_speakers doc = Some [])
  /\ ~ (exists doc c,
           whisperx_service.format_output "en" hi_there = Ok doc
           /\ doc_confidence doc = Some c /\ c == 8 # 10
           /\ doc_speakers doc = Some []).
Proof.
  split; intros (doc & c & H & Hc & _ & Hs); vm_compute in H;
    inversion H; subst; discriminate.
Qed.

(* ================================================================== *)
(** * Dictionaries *)

Section Dict.
Context {V : Type}.
Implicit Types (d : dict V) (k : string).

Lemma dict_in_keys k d : dict_in k d = true <-> In k (keys d).
Proof.
  induction d as [|[k' v] d IH]; simpl.
  - split; [discriminate | tauto].
  - destruct (String.eqb_spec k' k) as [->|Hne].
    + tauto.
    + rewrite IH. split; [tauto|]. intros [H|H]; [contradiction | assumption].
Qed.

Lemma dict_in_lookup k d : dict_in k d = contains (dict_lookup k d).
Proof.
  induction d as [|[k' v] d IH]; simpl; [reflexivity|].
  now destruct (String.eqb k' k).
Qed.

Lemma keys_update k (f : V -> V) d : keys (dict_update k f d) = keys d.
Proof.
  induction d as [|[k' v] d IH]; simpl; [reflexivity|].
  destruct (String.eqb k' k); simpl; [reflexivity|]. now rewrite IH.
Qed.

Lemma lookup_update_same k (f : V -> V) d :
  dict_lookup k (dict_update k f d) = option_map f (dict_lookup k d).
Proof.
  induction d as [|[k' v] d IH]; simpl; [reflexivity|].
  destruct (String.eqb k' k) eqn:E; simpl; rewrite E; [reflexivity|exact IH].
Qed.

Lemma lookup_update_other k k' (f : V -> V) d :
  k' <> k -> dict_lookup k' (dict_update k f d) = dict_lookup k' d.
Proof.
  intros Hne. induction d as [|[k0 v] d IH]; simpl; [reflexivity|].
  destruct (String.eqb_spec k0 k) as [->|H0]; simpl.
  - destruct (String.eqb_spec k k'); [congruence | reflexivity].
  - now rewrite IH.
Qed.

Lemma lookup_add k k' (v : V) d :
  dict_lookup k' (dict_add k v d)
  = match dict_lookup k' d with
    | Some x => Some x
    | None => if String.eqb k k' then Some v else None
    end.
Proof.
  unfold dict_add. induction d as [|[k0 v0] d IH]; simpl; [reflexivity|].
  now destruct (String.eqb k0 k').
Qed.

Lemma keys_add k (v : V) d : keys (dict_add k v d) = keys d ++ [k].
Proof.
  unfold keys, dict_add. now rewrite map_app.
Qed.

Lemma lookup_In k (v : V) d : dict_lookup k d = Some v -> In (k, v) d.
Proof.
  induction d as [|[k0 v0] d IH]; simpl; [discriminate|].
  destruct (String.eqb_spec k0 k) as [->|Hne].
  - intros [= ->]. now left.
  - intros H. right. now apply IH.
Qed.

Lemma In_lookup k (v : V) d :
  NoDup (keys d) -> In (k, v) d -> dict_lookup k d = Some v.
Proof.
  induction d as [|[k0 v0] d IH]; simpl; [tauto|].
  intros Hnd [H|H].
  - injection H as -> ->. now rewrite String.eqb_refl.
  - inversion Hnd as [|? ? Hnotin Hnd']; subst.
    destruct (String.eqb_spec k0 k) as [->|Hne].
    + exfalso. apply Hnotin. change k with (fst (k, v)). now apply in_map.
    + now apply IH.
Qed.

End Dict.

(* ================================================================== *)
(** * Speaker statistics *)

Lemma keys_track id dur (d : dict SpeakerStat) :
  keys (whisperx_service.track id dur d)
  = if dict_in id d then keys d else keys d ++ [id].
Proof.
  unfold whisperx_service.track. rewrite !keys_update.
  destruct (dict_in id d); simpl; [reflexivity | apply keys_add].
Qed.

Lemma lookup_track_same id dur (d : dict SpeakerStat) :
  dict_lookup id (whisperx_service.track id dur d)
  = Some (bump dur (get (dict_lookup id d) (fresh id))).
Proof.
  unfold whisperx_service.track. rewrite !lookup_update_same.
  rewrite dict_in_lookup.
  destruct (dict_lookup id d) as [st|] eqn:E; simpl.
  - rewrite E. reflexivity.
  - rewrite lookup_add, E, String.eqb_refl. reflexivity.
Qed.

Lemma lookup_track_other id id' dur (d : dict SpeakerStat) :
  id' <> id ->
  dict_lookup id' (whisperx_service.track id dur d) = dict_lookup id' d.
Proof.
  intros Hne. unfold whisperx_service.track.
  rewrite !lookup_update_other by assumption.
  destruct (dict_in id d); simpl; [reflexivity|].
  rewrite lookup_add.
  destruct (dict_lookup id' d); [reflexivity|].
  destruct (String.eqb_spec id id'); [congruence | reflexivity].
Qed.

Lemma total_duration_snoc (ss : list RawSegment) (s : RawSegment) :
  total_duration (ss ++ [s]) == total_duration ss + duration s.
Proof.
  unfold total_duration. induction ss as [|x ss IH]; simpl.
  - ring.
  - rewrite IH. ring.
Qed.

Lemma tracked_holds (items : list RawSegment) :
  forall id, holds id items (dict_lookup id (fold_left tracked items [])).
Proof.
  induction items as [|s items IH] using rev_ind; intros id.
  - reflexivity.
  - rewrite fold_left_app. cbn [fold_left].
    specialize (IH id). unfold holds in *. rewrite !filter_app.
    cbn [filter]. unfold tracked at 1. unfold carries at 2 4 6 8.
    destruct (raw_speaker s) as [sid|] eqn:Es.
    + destruct (String.eqb_spec sid id) as [->|Hne].
      * rewrite lookup_track_same.
        destruct (dict_lookup id (fold_left tracked items [])) as [st|];
          cbn [get bump fresh spk_id spk_segments spk_total_duration].
        -- destruct IH as (Hid & Hn & Hd & _).
           split; [assumption|]. split; [|split].
           ++ rewrite length_app, Hn. reflexivity.
           ++ rewrite total_duration_snoc, Hd. reflexivity.
           ++ intros H. now apply app_eq_nil in H.
        -- rewrite IH. split; [reflexivity|]. split; [reflexivity|]. split.
           ++ rewrite total_duration_snoc. reflexivity.
           ++ discriminate.
      * rewrite lookup_track_other by congruence.
        now rewrite !app_nil_r.
    + now rewrite !app_nil_r.
Qed.

Lemma tracked_keys_NoDup (items : list RawSegment) :
  NoDup (keys (fold_left tracked items [])).
Proof.
  induction items as [|s items IH] using rev_ind.
  - constructor.
  - rewrite fold_left_app. simpl. unfold tracked at 1.
    destruct (raw_speaker s) as [sid|]; [|assumption].
    rewrite keys_track.
    destruct (dict_in sid _) eqn:E; [assumption|].
    apply NoDup_app; [assumption | repeat constructor; simpl; tauto |].
    intros k Hk [<-|[]]. apply dict_in_keys in Hk. congruence.
Qed.

Lemma tracked_ids (items : list RawSegment) :
  forall id st,
    In (id, st) (fold_left tracked items []) -> spk_id st = id.
Proof.
  intros id st H.
  pose proof (tracked_holds items id) as Hh.
  rewrite (In_lookup id st _ (tracked_keys_NoDup items) H) in Hh.
  apply Hh.
Qed.

Lemma tracked_values_ids (items : list RawSegment) :
  map spk_id (values (fold_left tracked items []))
  = keys (fold_left tracked items []).
Proof.
  unfold values, keys. rewrite map_map. apply map_ext_in.
  intros [id st] H. simpl. now apply tracked_ids with items.
Qed.

Lemma carries_filter id (items : list RawSegment) :
  filter (carries id) items <> []
  <-> exists s, In s items /\ raw_speaker s = Some id.
Proof.
  split.
  - intros H. destruct (filter (carries id) items) as [|s l] eqn:E;
      [now elim H|].
    assert (Hin : In s (filter (carries id) items)) by (rewrite E; now left).
    apply filter_In in Hin. destruct Hin as [Hin Hc].
    exists s. split; [assumption|]. unfold carries in Hc.
    destruct (raw_speaker s) as [id'|]; [|discriminate].
    apply String.eqb_eq in Hc. now subst.
  - intros (s & Hin & Hs) H.
    assert (Hf : In s (filter (carries id) items)).
    { apply filter_In. split; [assumption|]. unfold carries.
      rewrite Hs. apply String.eqb_refl. }
    rewrite H in Hf. contradiction.
Qed.

Lemma tracked_keys_carried (items : list RawSegment) (id : string) :
  In id (keys (fold_left tracked items []))
  <-> filter (carries id) items <> [].
Proof.
  rewrite <- dict_in_keys, dict_in_lookup.
  pose proof (tracked_holds items id) as H. unfold holds in H.
  destruct (dict_lookup id (fold_left tracked items [])); simpl.
  - split; [intros _; apply H | reflexivity].
  - split; [discriminate | intros Hne; now elim Hne].
Qed.

(** ** Order of first appearance *)

Lemma first_appearance_le id (items : list RawSegment) :
  (first_appearance id items <= List.length items)%nat.
Proof.
  induction items as [|s items IH]; simpl; [lia|].
  destruct (carries id s); lia.
Qed.

Lemma first_appearance_lt id (items : list RawSegment) :
  filter (carries id) items <> []
  <-> (first_appearance id items < List.length items)%nat.
Proof.
  induction items as [|s items IH]; simpl.
  - split; [intros H; now elim H | lia].
  - destruct (carries id s).
    + split; [lia | discriminate].
    + rewrite IH. lia.
Qed.

Lemma first_appearance_snoc id (items : list RawSegment) s :
  first_appearance id (items ++ [s])
  = if (first_appearance id items <? List.length items)%nat
    then first_appearance id items
    else if carries id s then List.length items
         else S (List.length items).
Proof.
  induction items as [|x items IH]; simpl.
  - now destruct (carries id s).
  - destruct (carries id x); [reflexivity|].
    rewrite IH.
    change (S (first_appearance id items) <? S (List.length items))%nat
      with (first_appearance id items <? List.length items)%nat.
    destruct (first_appearance id items <? List.length items)%nat;
      [reflexivity|].
    now destruct (carries id s).
Qed.

Lemma StronglySorted_snoc {A} (R : A -> A -> Prop) (l : list A) (x : A) :
  StronglySorted R l -> Forall (fun a => R a x) l ->
  StronglySorted R (l ++ [x]).
Proof.
  induction 1 as [|a l Hs IH Ha]; intros Hx; simpl.
  - repeat constructor.
  - inversion Hx; subst. constructor.
    + now apply IH.
    + apply Forall_app. split; [assumption | now repeat constructor].
Qed.

Lemma StronglySorted_ext_in {A} (R R' : A -> A -> Prop) (l : list A) :
  (forall a b, In a l -> In b l -> R a b -> R' a b) ->
  StronglySorted R l -> StronglySorted R' l.
Proof.
  intros Hext Hs. induction Hs as [|a l Hs IH Ha]; constructor.
  - apply IH. intros x y Hx Hy. apply Hext; now right.
  - rewrite Forall_forall in *. intros b Hb.
    apply Hext; [now left | now right | now apply Ha].
Qed.

(** The keys of [speaker_stats] are in the order in which the speakers
    first appear. *)
Lemma tracked_keys_sorted (items : list RawSegment) :
  StronglySorted
    (fun a b => (first_appearance a items < first_appearance b items)%nat)
    (keys (fold_left tracked items [])).
Proof.
  induction items as [|s items IH] using rev_ind.
  - constructor.
  - assert (Hold :
      StronglySorted
        (fun a b => (first_appearance a (items ++ [s])
                     < first_appearance b (items ++ [s]))%nat)
        (keys (fold_left tracked items []))).
    { revert IH. apply StronglySorted_ext_in. intros a b Ha Hb Hab.
      apply tracked_keys_carried, first_appearance_lt in Ha, Hb.
      rewrite !first_appearance_snoc.
      apply Nat.ltb_lt in Ha, Hb. now rewrite Ha, Hb. }
    rewrite fold_left_app. cbn [fold_left]. unfold tracked at 1.
    destruct (raw_speaker s) as [sid|] eqn:Es; [|assumption].
    rewrite keys_track.
    destruct (dict_in sid (fold_left tracked items [])) eqn:E;
      [assumption|].
    apply StronglySorted_snoc; [assumption|].
    apply Forall_forall. intros a Ha.
    apply tracked_keys_carried, first_appearance_lt in Ha.
    assert (Hsid : ~ In sid (keys (fold_left tracked items []))).
    { rewrite <- dict_in_keys. congruence. }
    rewrite tracked_keys_carried, first_appearance_lt in Hsid.
    rewrite !first_appearance_snoc.
    apply Nat.ltb_lt in Ha. rewrite Ha. apply Nat.ltb_lt in Ha.
    apply Nat.ltb_nlt in Hsid. rewrite Hsid.
    unfold carries. rewrite Es, String.eqb_refl. assumption.
Qed.

Lemma numbered_length (items : list RawSegment) :
  forall n, List.length (numbered n items) = List.length items.
Proof.
  induction items as [|s items IH]; intros n; simpl; [reflexivity|].
  now rewrite IH.
Qed.

Lemma numbered_nth (items : list RawSegment) :
  forall n i,
    nth_error (numbered n items) i
    = option_map (processor_segment (n + i)) (nth_error items i).
Proof.
  induction items as [|s items IH]; intros n [|i]; simpl;
    try reflexivity.
  - now rewrite Nat.add_0_r.
  - rewrite IH. now rewrite Nat.add_succ_r.
Qed.

Lemma complete_with_words_segment (items : list RawSegment) :
  forallb complete_with_words items = true ->
  forallb complete_segment items = true.
Proof.
  rewrite !forallb_forall. intros H s Hs. specialize (H s Hs).
  unfold complete_with_words in H. now apply andb_prop in H.
Qed.

(* ================================================================== *)
(** * Trimming *)

Lemma lstrip_split (s : string) :
  exists l, s = (l ++ lstrip s)%string /\ blank l = true.
Proof.
  induction s as [|c s IH]; simpl.
  - now exists EmptyString.
  - destruct (isspace c) eqn:E.
    + destruct IH as (l & Hl & Hb). exists (String c l). simpl.
      rewrite E, Hb. split; [now rewrite <- Hl | reflexivity].
    + now exists EmptyString.
Qed.

Lemma lstrip_head (s : string) c rest :
  lstrip s = String c rest -> isspace c = false.
Proof.
  induction s as [|a s IH]; simpl; [discriminate|].
  destruct (isspace a) eqn:E; [assumption|].
  intros [= <- _]. assumption.
Qed.

Lemma rstrip_split (s : string) :
  exists r, s = (rstrip s ++ r)%string /\ blank r = true.
Proof.
  induction s as [|c s (r & Hr & Hb)]; simpl.
  - now exists EmptyString.
  - destruct (rstrip s) as [|k kept] eqn:E.
    + simpl in Hr. subst r. destruct (isspace c) eqn:Ec.
      * exists (String c s). simpl. now rewrite Ec, Hb.
      * exists s. now split.
    + exists r. simpl. split; [now rewrite Hr at 1 | assumption].
Qed.

Lemma rstrip_head (s : string) c rest :
  rstrip s = String c rest -> exists rest', s = String c rest'.
Proof.
  destruct s as [|a s]; simpl; [discriminate|].
  destruct (rstrip s).
  - destruct (isspace a); [discriminate|]. intros [= <- _]. now exists s.
  - intros [= <- _]. now exists s.
Qed.

Lemma rstrip_last (s : string) :
  forall front c,
    rstrip s = (front ++ String c EmptyString)%string -> isspace c = false.
Proof.
  induction s as [|a s IH]; simpl; intros front c H.
  - destruct front; discriminate.
  - destruct (rstrip s) as [|k kept].
    + destruct (isspace a) eqn:E.
      * destruct front; discriminate.
      * destruct front as [|f front]; simpl in H.
        -- now injection H as <-.
        -- injection H as _ H. destruct front; discriminate.
    + destruct front as [|f front]; simpl in H.
      * discriminate.
      * injection H as _ H. now apply (IH front c).
Qed.

(** [strip] removes white space from both ends, and nothing else. *)
Lemma strip_trims (s : string) :
  (exists l r, s = (l ++ strip s ++ r)%string
               /\ blank l = true /\ blank r = true)
  /\ trimmed (strip s).
Proof.
  unfold strip. split.
  - destruct (lstrip_split s) as (l & Hl & Hbl).
    destruct (rstrip_split (lstrip s)) as (r & Hr & Hbr).
    exists l, r. split; [|now split]. now rewrite <- Hr.
  - split.
    + intros c rest H. apply rstrip_head in H. destruct H as (rest' & H).
      now apply lstrip_head in H.
    + intros front c H. now apply rstrip_last in H.
Qed.

(* ================================================================== *)
(** * The claims on the assembled document *)

Lemma nth_forallb {A} (f : A -> bool) (l : list A) i x :
  forallb f l = true -> nth_error l i = Some x -> f x = true.
Proof.
  intros H Hi. rewrite forallb_forall in H. apply H.
  now apply nth_error_In with i.
Qed.

Lemma complete_derived (s : RawSegment) :
  complete_segment s = true ->
  derived_from s (simple_segment s)
  /\ derived_from s (service_segment s)
  /\ forall n, derived_from s (processor_segment n s).
Proof.
  intros H. destruct (complete_segment_keys s H) as (a & b & c & Ha & Hb & Hc).
  unfold derived_from. simpl. rewrite Ha, Hb, Hc. simpl.
  repeat split; now exists c.
Qed.

(** C3.  In [whisperx_service], for every speaker label of the input the
    list of speakers has exactly one entry with that id; its count is the
    number of input segments that carry the label and its total duration
    is the sum of [end - start] over those segments. *)
Theorem speaker_statistics
    (lang : string) (result_ : RawResult) (items : list RawSegment)
    (id : string)
    (Hsegments : raw_segments result_ = Some items)
    (Hcomplete : forallb complete_with_words items = true)
    (Hid : exists s, In s items /\ raw_speaker s = Some id) :
  exists doc speakers st,
    whisperx_service.format_output lang result_ = Ok doc
    /\ doc_speakers doc = Some speakers
    /\ In st speakers
    /\ spk_id st = id
    /\ (forall st', In st' speakers -> spk_id st' = id -> st' = st)
    /\ spk_segments st = List.length (filter (carries id) items)
    /\ spk_total_duration st == total_duration (filter (carries id) items).
Proof.
  rewrite (service_format_output_complete lang result_ Hsegments Hcomplete).
  apply carries_filter in Hid.
  pose proof (tracked_holds items id) as Hh. unfold holds in Hh.
  destruct (dict_lookup id (fold_left tracked items [])) as [st|] eqn:E;
    [|contradiction].
  destruct Hh as (Hsid & Hn & Hd & _).
  exists {| doc_language := lang;
            doc_segments := map service_segment items;
            doc_speakers := Some (values (fold_left tracked items []));
            doc_confidence := None |},
    (values (fold_left tracked items [])), st.
  split; [reflexivity|]. split; [reflexivity|].
  split.
  { apply lookup_In in E. unfold values.
    change st with (snd (id, st)). now apply in_map. }
  split; [assumption|].
  split; [|now split].
  intros st' Hin Hst'. unfold values in Hin. apply in_map_iff in Hin.
  destruct Hin as ([k v] & Hv & Hin). simpl in Hv. subst v.
  pose proof (tracked_ids items k st' Hin) as Hk.
  assert (Hkid : k = id) by congruence. rewrite Hkid in Hin.
  apply (In_lookup id st' _ (tracked_keys_NoDup items)) in Hin.
  congruence.
Qed.

(** C4.  In the three scripts the i-th segment of the document has the
    bounds and the stripped text of the i-th input segment (and, in
    [whisperx_processor], the id i).  In [whisperx_service] the list of
    speakers has the speaker labels of the input, each once, in the order
    of their first appearance; in [whisper_simple] it is empty. *)
Theorem order_preserved
    (lang : string) (result_ : RawResult) (items : list RawSegment)
    (Hsegments : raw_segments result_ = Some items)
    (Hcomplete : forallb complete_with_words items = true) :
  (exists doc speakers,
      whisperx_service.format_output lang result_ = Ok doc
      /\ doc_speakers doc = Some speakers
      /\ List.length (doc_segments doc) = List.length items
      /\ (forall i s,
             nth_error items i = Some s ->
             exists seg,
               nth_error (doc_segments doc) i = Some seg
               /\ derived_from s seg
               /\ seg_speaker seg = raw_speaker s)
      /\ (forall id,
             In id (map spk_id speakers)
             <-> exists s, In s items /\ raw_speaker s = Some id)
      /\ StronglySorted
           (fun a b =>
              (first_appearance a items < first_appearance b items)%nat)
           (map spk_id speakers))
  /\ (exists doc,
         whisper_simple.format_output lang result_ = Ok doc
         /\ doc_speakers doc = Some []
         /\ List.length (doc_segments doc) = List.length items
         /\ (forall i s,
                nth_error items i = Some s ->
                exists seg,
                  nth_error (doc_segments doc) i = Some seg
                  /\ derived_from s seg))
  /\ (exists doc,
         whisperx_processor.format_output result_ = Ok doc
         /\ List.length (doc_segments doc) = List.length items
         /\ (forall i s,
                nth_error items i = Some s ->
                exists seg,
                  nth_error (doc_segments doc) i = Some seg
                  /\ derived_from s seg
                  /\ seg_id seg = Some i)).
Proof.
  pose proof (complete_with_words_segment items Hcomplete) as Hc.
  split; [|split].
  - rewrite (service_format_output_complete lang result_ Hsegments Hcomplete).
    eexists. eexists. split; [reflexivity|]. simpl.
    split; [reflexivity|]. split; [apply length_map|].
    split; [|split].
    + intros i s Hi. exists (service_segment s).
      rewrite nth_error_map, Hi.
      split; [reflexivity|]. split; [|reflexivity].
      apply complete_derived, (nth_forallb _ _ i Hc Hi).
    + intros id. rewrite tracked_values_ids, tracked_keys_carried.
      apply carries_filter.
    + rewrite tracked_values_ids. apply tracked_keys_sorted.
  - rewrite simple_format_output_complete by now rewrite Hsegments.
    eexists. split; [reflexivity|]. simpl. rewrite Hsegments. simpl.
    split; [reflexivity|]. split; [apply length_map|].
    intros i s Hi. exists (simple_segment s).
    rewrite nth_error_map, Hi. split; [reflexivity|].
    apply complete_derived, (nth_forallb _ _ i Hc Hi).
  - rewrite (processor_format_output_complete result_ Hsegments Hc).
    eexists. split; [reflexivity|]. simpl.
    split; [apply numbered_length|].
    intros i s Hi. exists (processor_segment i s).
    rewrite numbered_nth, Hi. split; [reflexivity|].
    split; [|reflexivity].
    apply complete_derived, (nth_forallb _ _ i Hc Hi).
Qed.

(** C5.  Every segment of the document has the text of its input segment
    without the white space at both ends.  Its confidence is 1 in
    [whisper_simple]; in [whisperx_processor] it is the [score] of the
    input segment when there is one, and 0 otherwise; in
    [whisperx_service] it is the [confidence] of the input segment when
    there is one, and 1 otherwise. *)
Theorem text_trimmed_confidence_normalised
    (lang : string) (result_ : RawResult) (items : list RawSegment)
    (Hsegments : raw_segments result_ = Some items)
    (Hcomplete : forallb complete_with_words items = true) :
  (exists doc,
      whisper_simple.format_output lang result_ = Ok doc
      /\ forall i s text,
           nth_error items i = Some s -> raw_text s = Some text ->
           exists seg,
             nth_error (doc_segments doc) i = Some seg
             /\ trims text (seg_text seg)
             /\ seg_confidence seg = 1)
  /\ (exists doc,
         whisperx_processor.format_output result_ = Ok doc
         /\ forall i s text,
              nth_error items i = Some s -> raw_text s = Some text ->
              exists seg,
                nth_error (doc_segments doc) i = Some seg
                /\ trims text (seg_text seg)
                /\ seg_confidence seg
                   = match raw_score s with
                     | Some score => score
                     | None => 0
                     end)
  /\ (exists doc,
         whisperx_service.format_output lang result_ = Ok doc
         /\ forall i s text,
              nth_error items i = Some s -> raw_text s = Some text ->
              exists seg,
                nth_error (doc_segments doc) i = Some seg
                /\ trims text (seg_text seg)
                /\ seg_confidence seg
                   = match raw_confidence s with
                     | Some confidence => confidence
                     | None => 1
                     end).
Proof.
  pose proof (complete_with_words_segment items Hcomplete) as Hc.
  assert (Htrims : forall text, trims text (strip text)).
  { intros text. unfold trims. split; [reflexivity|]. apply strip_trims. }
  split; [|split].
  - rewrite simple_format_output_complete by now rewrite Hsegments.
    eexists. split; [reflexivity|]. simpl. rewrite Hsegments. simpl.
    intros i s text Hi Ht. exists (simple_segment s).
    rewrite nth_error_map, Hi. split; [reflexivity|].
    split; [|reflexivity].
    cbn [seg_text simple_segment]. rewrite Ht. apply Htrims.
  - rewrite (processor_format_output_complete result_ Hsegments Hc).
    eexists. split; [reflexivity|]. simpl.
    intros i s text Hi Ht. exists (processor_segment i s).
    rewrite numbered_nth, Hi. split; [reflexivity|].
    split; [|reflexivity].
    cbn [seg_text processor_segment]. rewrite Ht. apply Htrims.
  - rewrite (service_format_output_complete lang result_ Hsegments Hcomplete).
    eexists. split; [reflexivity|]. simpl.
    intros i s text Hi Ht. exists (service_segment s).
    rewrite nth_error_map, Hi. split; [reflexivity|].
    split; [|reflexivity].
    cbn [seg_text service_segment]. rewrite Ht. apply Htrims.
Qed.

(** C6.  For an input segment with words, the segment of the document has
    one word for each of them, in the same order.  In [whisper_simple] the
    confidence of a word is its [probability], and 1 when it has none.  In
    [whisperx_service] the word has the text and the bounds of the input
    word, and its confidence is the [confidence] of the input word when
    there is one (and 1 otherwise).  In [whisperx_processor] the words of
    the input segment are handed on as they are. *)
Theorem words_in_order
    (lang : string) (result_ : RawResult) (items : list RawSegment)
    (Hsegments : raw_segments result_ = Some items)
    (Hcomplete : forallb complete_with_words items = true) :
  (exists doc,
      whisper_simple.format_output lang result_ = Ok doc
      /\ forall i s ws,
           nth_error items i = Some s -> raw_words s = Some ws ->
           exists seg out,
             nth_error (doc_segments doc) i = Some seg
             /\ seg_words seg = Some (Built out)
             /\ List.length out = List.length ws
             /\ forall j w,
                  nth_error ws j = Some w ->
                  exists w',
                    nth_error out j = Some w'
                    /\ raw_word_word w = Some (word_word w')
                    /\ word_confidence w'
                       = match raw_word_probability w with
                         | Some probability => probability
                         | None => 1
                         end)
  /\ (exists doc,
         whisperx_service.format_output lang result_ = Ok doc
         /\ forall i s ws,
              nth_error items i = Some s -> raw_words s = Some ws ->
              exists seg out,
                nth_error (doc_segments doc) i = Some seg
                /\ seg_words seg = Some (Built out)
                /\ List.length out = List.length ws
                /\ forall j w,
                     nth_error ws j = Some w ->
                     exists w',
                       nth_error out j = Some w'
                       /\ raw_word_word w = Some (word_word w')
                       /\ raw_word_start w = Some (word_start w')
                       /\ raw_word_end w = Some (word_end w')
                       /\ word_confidence w'
                          = match raw_word_confidence w with
                            | Some confidence => confidence
                            | None => 1
                            end)
  /\ (exists doc,
         whisperx_processor.format_output result_ = Ok doc
         /\ forall i s ws,
              nth_error items i = Some s -> raw_words s = Some ws ->
              exists seg,
                nth_error (doc_segments doc) i = Some seg
                /\ seg_words seg = Some (HandedOn ws)).
Proof.
  pose proof (complete_with_words_segment items Hcomplete) as Hc.
  split; [|split].
  - rewrite simple_format_output_complete by now rewrite Hsegments.
    eexists. split; [reflexivity|]. simpl. rewrite Hsegments. simpl.
    intros i s ws Hi Hw. exists (simple_segment s).
    exists (map whisper_simple.word_data ws).
    rewrite nth_error_map, Hi. simpl. rewrite Hw. simpl.
    split; [reflexivity|]. split; [reflexivity|].
    split; [apply length_map|].
    intros j w Hj. exists (whisper_simple.word_data w).
    rewrite nth_error_map, Hj. simpl. split; [reflexivity|].
    split; [|reflexivity].
    apply nth_error_In in Hi, Hj.
    rewrite forallb_forall in Hcomplete. specialize (Hcomplete s Hi).
    unfold complete_with_words in Hcomplete. rewrite Hw in Hcomplete.
    apply andb_prop in Hcomplete. destruct Hcomplete as [_ Hws].
    rewrite forallb_forall in Hws. specialize (Hws w Hj).
    unfold complete_word in Hws.
    destruct (raw_word_word w); [reflexivity | discriminate].
  - rewrite (service_format_output_complete lang result_ Hsegments Hcomplete).
    eexists. split; [reflexivity|]. simpl.
    intros i s ws Hi Hw. exists (service_segment s).
    exists (map service_word ws).
    rewrite nth_error_map, Hi. simpl. rewrite Hw. simpl.
    split; [reflexivity|]. split; [reflexivity|].
    split; [apply length_map|].
    intros j w Hj. exists (service_word w).
    rewrite nth_error_map, Hj. simpl. split; [reflexivity|].
    apply nth_error_In in Hi, Hj.
    rewrite forallb_forall in Hcomplete. specialize (Hcomplete s Hi).
    unfold complete_with_words in Hcomplete. rewrite Hw in Hcomplete.
    apply andb_prop in Hcomplete. destruct Hcomplete as [_ Hws].
    rewrite forallb_forall in Hws. specialize (Hws w Hj).
    unfold complete_word in Hws.
    destruct (raw_word_word w), (raw_word_start w), (raw_word_end w);
      try discriminate. now repeat split.
  - rewrite (processor_format_output_complete result_ Hsegments Hc).
    eexists. split; [reflexivity|]. simpl.
    intros i s ws Hi Hw. exists (processor_segment i s).
    rewrite numbered_nth, Hi. simpl. now rewrite Hw.
Qed.

(* ================================================================== *)
(** * Processes *)

Lemma quiet_ret {A} (a : A) : quiet (ret a).
Proof. intros w. now split. Qed.

Lemma quiet_raise {A} (e : exn) : quiet (@raise A e).
Proof. intros w. now split. Qed.

Lemma quiet_call {A} (r : result A) : quiet (call r).
Proof. intros w. now split. Qed.

Lemma quiet_eprint (l : stderr_line) : quiet (eprint l).
Proof. intros w. now split. Qed.

Lemma quiet_bind {A B} (m : M A) (k : A -> M B) :
  quiet m -> (forall a, quiet (k a)) -> quiet (bind m k).
Proof.
  intros Hm Hk w. unfold bind. specialize (Hm w).
  destruct (m w) as [[a|e] w1]; simpl in *.
  - specialize (Hk a w1). destruct Hm, Hk. split; congruence.
  - exact Hm.
Qed.

Lemma quiet_try {A} (body : M A) (handler : exn -> M A) :
  quiet body -> (forall e, quiet (handler e)) ->
  quiet (try_except body handler).
Proof.
  intros Hm Hk w. unfold try_except. specialize (Hm w).
  destruct (body w) as [[a|e] w1]; simpl in *.
  - exact Hm.
  - specialize (Hk e w1). destruct Hm, Hk. split; congruence.
Qed.

Ltac quiet_steps :=
  cbv zeta;
  repeat first
    [ apply quiet_ret | apply quiet_raise | apply quiet_call
    | apply quiet_eprint
    | apply quiet_bind; [|intros ?]
    | apply quiet_try; [|intros ?]
    | match goal with
      | |- quiet (if ?b then _ else _) => destruct b
      | |- quiet (match ?x with _ => _ end) => destruct x
      end ].

Lemma simple_init_quiet (whisper : whisper_lib) model_size :
  quiet (whisper_simple.init whisper model_size).
Proof. unfold whisper_simple.init. quiet_steps. Qed.

Lemma simple_transcribe_quiet (whisper : whisper_lib)
    (self : whisper_simple.SimpleWhisperTranscriber whisper) path language :
  quiet (whisper_simple.transcribe self path language).
Proof. unfold whisper_simple.transcribe. quiet_steps. Qed.

Lemma simple_transcribe_speakers (whisper : whisper_lib)
    (self : whisper_simple.SimpleWhisperTranscriber whisper) path language w :
  match whisper_simple.transcribe self path language w with
  | (Ok doc, _) => doc_speakers doc = Some [] /\ doc_confidence doc = None
  | (Raise _, _) => True
  end.
Proof.
  unfold whisper_simple.transcribe. cbv [bind call eprint].
  destruct (whisper_transcribe _ _ _ _) as [r|e]; [|exact I].
  pose proof (simple_no_confidence (get (raw_language r) "unknown") r) as H.
  destruct (whisper_simple.format_output _ r); [|exact I]. tauto.
Qed.

(** [process_file] either writes the document to the file and to the
    standard output, or writes an error document to the standard output
    and leaves the files alone. *)
Lemma simple_process_file_outcome (os : os_lib) (whisper : whisper_lib)
    (self : whisper_simple.SimpleWhisperTranscriber whisper)
    input_path output_path language w :
  let run := whisper_simple.process_file os self input_path output_path
               language w in
  match fst (whisper_simple.transcribe self input_path language w),
        open_w os output_path with
  | Ok doc, Ok _ =>
      fst run = Ok true
      /\ stdout (snd run) = stdout w ++ [JsonDocument doc]
      /\ files (snd run) = files w ++ [(output_path, doc)]
  | Ok _, Raise e | Raise e, _ =>
      fst run = Ok false
      /\ stdout (snd run) = stdout w ++ [JsonError (str_exn e) false]
      /\ files (snd run) = files w
  end.
Proof.
  pose proof (simple_transcribe_quiet self input_path language w) as Hq.
  unfold whisper_simple.process_file.
  cbv [try_except bind dump eprint print ret].
  destruct (whisper_simple.transcribe self input_path language w)
    as [[doc|e] w1]; simpl in Hq; destruct Hq as [Ho Hf]; simpl.
  - destruct (open_w os output_path) as [[]|e] eqn:E; simpl;
      rewrite Ho, Hf; now repeat split.
  - rewrite Ho, Hf. now repeat split.
Qed.

(** ** [whisperx_service] *)

Lemma service_transcribe_quiet (whisperx : whisperx_lib)
    (self : whisperx_service.WhisperXTranscriber whisperx)
    path language enable mn mx :
  quiet (whisperx_service.transcribe self path language enable mn mx).
Proof. unfold whisperx_service.transcribe. quiet_steps. Qed.

Lemma service_init_quiet (whisperx : whisperx_lib) size device ctype :
  quiet (whisperx_service.init whisperx size device ctype).
Proof. unfold whisperx_service.init. quiet_steps. Qed.

Lemma service_load_diarization_quiet (os : os_lib) (whisperx : whisperx_lib)
    (self : whisperx_service.WhisperXTranscriber whisperx) token :
  quiet (whisperx_service.load_diarization_model os self token).
Proof. unfold whisperx_service.load_diarization_model. quiet_steps. Qed.

Lemma service_init_value (whisperx : whisperx_lib) size device ctype w :
  fst (whisperx_service.init whisperx size device ctype w)
  = match load_model whisperx size (resolved_device whisperx device)
            (resolved_compute_type whisperx device ctype) None with
    | Ok m =>
        Ok {| whisperx_service.self_device :=
                resolved_device whisperx device;
              whisperx_service.self_compute_type :=
                resolved_compute_type whisperx device ctype;
              whisperx_service.self_model := m;
              whisperx_service.self_diarize_model := None |}
    | Raise e => Raise e
    end.
Proof.
  unfold whisperx_service.init, resolved_compute_type, resolved_device.
  cbv [bind call eprint ret].
  now destruct (load_model _ _ _ _ _).
Qed.

(** [load_diarization_model] never raises; the object it leaves has a
    diarization model only when there is a token and the pipeline loads. *)
Lemma service_load_diarization_value (os : os_lib) (whisperx : whisperx_lib)
    (self : whisperx_service.WhisperXTranscriber whisperx) token w :
  exists self' loaded,
    fst (whisperx_service.load_diarization_model os self token w)
    = Ok (self', loaded)
    /\ whisperx_service.self_device self'
       = whisperx_service.self_device self
    /\ whisperx_service.self_compute_type self'
       = whisperx_service.self_compute_type self
    /\ whisperx_service.self_model self'
       = whisperx_service.self_model self
    /\ whisperx_service.self_diarize_model self'
       = if truthy (effective_token os token)
         then match DiarizationPipeline whisperx
                      (get (effective_token os token) "")
                      (whisperx_service.self_device self) with
              | Ok d => Some d
              | Raise _ => whisperx_service.self_diarize_model self
              end
         else whisperx_service.self_diarize_model self.
Proof.
  unfold whisperx_service.load_diarization_model.
  fold (effective_token os token).
  destruct (truthy (effective_token os token)); simpl.
  - cbv [try_except bind call eprint ret].
    destruct (DiarizationPipeline _ _ _) as [d|e]; simpl;
      eexists; eexists; (split; [reflexivity|]); now repeat split.
  - cbv [bind eprint ret]. simpl.
    eexists; eexists; (split; [reflexivity|]); now repeat split.
Qed.

Ltac exec :=
  cbv [bind call eprint print ret raise try_except dump makedirs
       stdout stderr files dirs].

Lemma service_transcribe_raises (whisperx : whisperx_lib)
    (self : whisperx_service.WhisperXTranscriber whisperx)
    path language enable mn mx e w :
  capability_raises self path language enable mn mx e ->
  fst (whisperx_service.transcribe self path language enable mn mx w)
  = Raise e.
Proof.
  unfold whisperx_service.transcribe. destruct w as [so se fi di]. exec.
  intros [H1|a H1 H2|a r H1 H2 H3|a r ma sg H1 H2 H3 H4 H5
          |a r ma sg al d H1 H2 H3 H4 H5 H6 H7 H8
          |a r ma sg al d ds H1 H2 H3 H4 H5 H6 H7 H8 H9];
    rewrite H1; [reflexivity|..];
    rewrite H2; [reflexivity|..];
    rewrite H3; [reflexivity|..];
    rewrite H4; cbv [subscript]; rewrite H5; [reflexivity|..];
    rewrite H6, H7, H8; [reflexivity|];
    rewrite H9; reflexivity.
Qed.

(** Without a diarization model, [transcribe] builds the document from the
    aligned result and does not announce a diarization. *)
Lemma service_transcribe_undiarized (whisperx : whisperx_lib)
    (self : whisperx_service.WhisperXTranscriber whisperx)
    path language enable mn mx w audio result_ ma segments aligned :
  whisperx_service.self_diarize_model self = None ->
  load_audio whisperx path = Ok audio ->
  model_transcribe whisperx (whisperx_service.self_model self) audio 16
    language = Ok result_ ->
  load_align_model whisperx (get (raw_language result_) "unknown")
    (whisperx_service.self_device self) = Ok ma ->
  raw_segments result_ = Some segments ->
  align whisperx segments (fst ma) (snd ma) audio
    (whisperx_service.self_device self) = Ok aligned ->
  let run := whisperx_service.transcribe self path language enable mn mx w in
  fst run
  = whisperx_service.format_output (get (raw_language result_) "unknown")
      aligned
  /\ exists printed,
       stderr (snd run) = stderr w ++ printed
       /\ ~ In (Printed "Performing speaker diarization...") printed.
Proof.
  intros Hd H1 H2 H3 H4 H5.
  unfold whisperx_service.transcribe. destruct w as [so se fi di]. exec.
  rewrite H1, H2, H3, H4. cbv [subscript]. rewrite H5, Hd.
  cbv beta iota zeta.
  cbv [fst snd stderr].
  split; [reflexivity|].
  eexists. split.
  - rewrite <- !app_assoc. reflexivity.
  - simpl. intros H.
    repeat (destruct H as [H|H]; [discriminate|]). exact H.
Qed.

Lemma service_process_file_outcome (os : os_lib) (whisperx : whisperx_lib)
    (self : whisperx_service.WhisperXTranscriber whisperx)
    input_path output_path language enable mn mx w :
  let transcribed := whisperx_service.transcribe self input_path language
                       enable mn mx w in
  let run := whisperx_service.process_file os self input_path output_path
               language enable mn mx w in
  match fst transcribed, open_w os output_path with
  | Ok doc, Ok _ =>
      fst run = Ok true
      /\ stdout (snd run) = stdout w ++ [JsonDocument doc]
      /\ files (snd run) = files w ++ [(output_path, doc)]
      /\ stderr (snd run)
         = stderr (snd transcribed)
             ++ [Printed ("Transcription saved to: " ++ output_path)]
  | Ok _, Raise e | Raise e, _ =>
      fst run = Ok false
      /\ stdout (snd run) = stdout w ++ [JsonError (str_exn e) false]
      /\ files (snd run) = files w
  end.
Proof.
  pose proof (service_transcribe_quiet self input_path language enable
                mn mx w) as Hq.
  unfold whisperx_service.process_file.
  cbv [try_except bind dump eprint print ret].
  destruct (whisperx_service.transcribe self input_path language enable
              mn mx w)
    as [[doc|e] w1]; simpl in Hq; destruct Hq as [Ho Hf]; simpl.
  - destruct (open_w os output_path) as [[]|e] eqn:E; simpl;
      rewrite Ho, Hf; now repeat split.
  - rewrite Ho, Hf. now repeat split.
Qed.

(** ** The runs of [whisper_simple] *)

Lemma simple_transcribe_value (whisper : whisper_lib)
    (self : whisper_simple.SimpleWhisperTranscriber whisper)
    path language w :
  fst (whisper_simple.transcribe self path language w)
  = match whisper_transcribe whisper (whisper_simple.self_model self)
            path language with
    | Ok result_ =>
        whisper_simple.format_output (get (raw_language result_) "unknown")
          result_
    | Raise e => Raise e
    end.
Proof.
  unfold whisper_simple.transcribe. cbv [bind call eprint].
  now destruct (whisper_transcribe _ _ _ _).
Qed.

(** From the start of the process to the call of [process_file]. *)
Lemma simple_main_run (os : os_lib) (whisper : whisper_lib)
    (args : whisper_simple.Args) :
  let run := process (whisper_simple.main os whisper args) in
  match resolved_output os (whisper_simple.input args)
          (whisper_simple.output args),
        whisper_load_model whisper (whisper_simple.model args) with
  | Ok path, Ok m =>
      exists w1,
        stdout w1 = [] /\ files w1 = []
        /\ let filed :=
             whisper_simple.process_file os
               {| whisper_simple.self_model := m |}
               (whisper_simple.input args) path
               (whisper_simple.language args) w1 in
           match fst filed with
           | Ok success =>
               run = ((if success then 0 else 1)%Z, snd filed)
           | Raise _ => fst run = 1%Z
           end
  | _, _ => silent_failure run
  end.
Proof.
  unfold process, whisper_simple.main, resolved_output, silent_failure.
  unfold whisper_simple.init, started. exec.
  destruct (negb (truthy (whisper_simple.output args)));
    [destruct (with_suffix os _ _) as [path|e]|];
    try (destruct (whisper_load_model whisper _) as [m|e']);
    cbv beta iota zeta;
    try (cbv [fst snd stdout files]; now repeat split);
    (match goal with
     | |- context [whisper_simple.process_file _ _ _ _ _ ?w] => exists w
     end;
     split; [reflexivity|]; split; [reflexivity|];
     destruct (whisper_simple.process_file _ _ _ _ _ _) as [[b|e] w2];
     reflexivity).
Qed.

(** Every run of [whisper_simple] prints at most one JSON object; a
    document it prints or files has an empty list of speakers. *)
Lemma simple_one_json_line (os : os_lib) (whisper : whisper_lib)
    (args : whisper_simple.Args) :
  one_json_line (fun doc => doc_speakers doc = Some [])
    (process (whisper_simple.main os whisper args)).
Proof.
  pose proof (simple_main_run os whisper args) as H. cbv zeta in H.
  destruct (resolved_output os _ _) as [path|e];
    [destruct (whisper_load_model whisper _) as [m|e]|];
    try (destruct H as (Hst & Ho & Hf); unfold one_json_line;
         rewrite Ho; now split).
  destruct H as (w1 & Ho & Hf & H). cbv zeta in H.
  pose proof (simple_process_file_outcome os
                {| whisper_simple.self_model := m |}
                (whisper_simple.input args) path
                (whisper_simple.language args) w1) as Hp.
  cbv zeta in Hp.
  pose proof (simple_transcribe_speakers
                {| whisper_simple.self_model := m |}
                (whisper_simple.input args)
                (whisper_simple.language args) w1) as Hs.
  destruct (whisper_simple.transcribe _ _ _ w1) as [[doc|e] wt];
    simpl in Hp, Hs.
  - destruct (open_w os path); destruct Hp as (Hr & Hso & Hsf);
      rewrite Hr in H; rewrite H; unfold one_json_line; simpl;
      rewrite Hso, Ho; simpl; rewrite Hsf, Hf; simpl.
    + split; [reflexivity|]. split; [apply Hs|]. now exists path.
    + now repeat split.
  - destruct Hp as (Hr & Hso & Hsf).
    rewrite Hr in H; rewrite H; unfold one_json_line; simpl.
    rewrite Hso, Ho; simpl; rewrite Hsf, Hf. now repeat split.
Qed.

(** C10.  A run of [whisper_simple] prints at most one JSON object, and
    the document it prints and files has an empty list of speakers; the run
    is the same whatever the device, the diarization switch, the bounds on
    the number of speakers and the token on the command line; every
    document [format_output] builds has an empty list of speakers. *)
Theorem simple_speakers_always_empty
    (os : os_lib) (whisper : whisper_lib) (args : whisper_simple.Args)
    (device : string) (no_diarization : bool)
    (min_speakers max_speakers : option Z) (hf_token : option string) :
  one_json_line (fun doc => doc_speakers doc = Some [])
    (process (whisper_simple.main os whisper args))
  /\ process (whisper_simple.main os whisper args)
     = process
         (whisper_simple.main os whisper
            {| whisper_simple.input := whisper_simple.input args;
               whisper_simple.output := whisper_simple.output args;
               whisper_simple.model := whisper_simple.model args;
               whisper_simple.language := whisper_simple.language args;
               whisper_simple.device := device;
               whisper_simple.no_diarization := no_diarization;
               whisper_simple.min_speakers := min_speakers;
               whisper_simple.max_speakers := max_speakers;
               whisper_simple.hf_token := hf_token |})
  /\ (forall lang result_,
         match whisper_simple.format_output lang result_ with
         | Ok doc => doc_speakers doc = Some []
         | Raise _ => True
         end).
Proof.
  split; [apply simple_one_json_line|]. split; [reflexivity|].
  intros lang result_.
  pose proof (simple_no_confidence lang result_) as H.
  destruct (whisper_simple.format_output lang result_); tauto.
Qed.

(** ** The runs of [whisperx_service] *)

(** From the start of the process to the call of [process_file]. *)
Lemma service_main_run (os : os_lib) (whisperx : whisperx_lib)
    (args : whisperx_service.Args) :
  let run := process (whisperx_service.main os whisperx args) in
  match resolved_output os (whisperx_service.input args)
          (whisperx_service.output args),
        load_model whisperx (whisperx_service.model args)
          (resolved_device whisperx (whisperx_service.device args))
          (resolved_compute_type whisperx (whisperx_service.device args)
             "float16") None with
  | Ok path, Ok m =>
      exists w1,
        stdout w1 = [] /\ files w1 = []
        /\ ~ In (Printed "Performing speaker diarization...") (stderr w1)
        /\ (whisperx_service.no_diarization args = false ->
            truthy (effective_token os (whisperx_service.hf_token args))
            = false ->
            In (Printed "Warning: No Hugging Face token provided. Speaker diarization will be disabled.")
              (stderr w1))
        /\ (forall e,
               whisperx_service.no_diarization args = false ->
               truthy (effective_token os (whisperx_service.hf_token args))
               = true ->
               DiarizationPipeline whisperx
                 (get (effective_token os (whisperx_service.hf_token args))
                    "")
                 (resolved_device whisperx (whisperx_service.device args))
               = Raise e ->
               In (Printed ("Failed to load diarization model: "
                            ++ str_exn e))
                 (stderr w1))
        /\ let filed :=
             whisperx_service.process_file os
               (built_transcriber os whisperx args m)
               (whisperx_service.input args) path
               (whisperx_service.language args)
               (negb (whisperx_service.no_diarization args))
               (whisperx_service.min_speakers args)
               (whisperx_service.max_speakers args) w1 in
           match fst filed with
           | Ok success =>
               run = ((if success then 0 else 1)%Z, snd filed)
           | Raise _ => fst run = 1%Z
           end
  | _, _ => silent_failure run
  end.
Proof.
  unfold process, whisperx_service.main, resolved_output, silent_failure.
  unfold whisperx_service.init, whisperx_service.load_diarization_model.
  unfold built_transcriber, effective_token, resolved_compute_type,
    resolved_device, started.
  exec.
  set (device :=
         if String.eqb (whisperx_service.device args) "auto"
         then if cuda_is_available whisperx then "cuda" else "cpu"
         else whisperx_service.device args).
  destruct (negb (truthy (whisperx_service.output args)));
    [destruct (with_suffix os _ _) as [path|e]|];
    try (destruct (load_model whisperx _ _ _ _) as [m|e1]);
    cbv beta iota zeta;
    try (cbv [fst snd stdout files]; now repeat split);
    (destruct (whisperx_service.no_diarization args);
     [|destruct (truthy
                   (if negb (truthy (whisperx_service.hf_token args))
                    then getenv os "HF_TOKEN"
                    else whisperx_service.hf_token args));
       [cbv [whisperx_service.self_device];
        destruct (DiarizationPipeline whisperx _ _) as [d|e2]|]]);
    cbv [negb fst snd whisperx_service.self_device
         whisperx_service.self_compute_type whisperx_service.self_model
         whisperx_service.self_diarize_model];
    cbv beta iota zeta;
    (match goal with
     | |- context [whisperx_service.process_file _ _ _ _ _ _ _ _ ?w] =>
         exists w
     end;
     split; [reflexivity|]; split; [reflexivity|];
     split;
     [simpl; intros H;
      repeat (destruct H as [H|H]; [discriminate|]); exact H|];
     split;
     [intros Hn Ht; try discriminate; simpl; auto 10|];
     split;
     [intros e4 Hn Ht He; try discriminate;
      injection He as <-; simpl; auto 10|];
     destruct (whisperx_service.process_file _ _ _ _ _ _ _ _ _)
       as [[b|e3] w2];
     reflexivity).
Qed.

(** Every run of [whisperx_service] prints at most one JSON object. *)
Lemma service_one_json_line (os : os_lib) (whisperx : whisperx_lib)
    (args : whisperx_service.Args) :
  one_json_line (fun _ => True)
    (process (whisperx_service.main os whisperx args)).
Proof.
  pose proof (service_main_run os whisperx args) as H. cbv zeta in H.
  destruct (resolved_output os _ _) as [path|e];
    [destruct (load_model whisperx _ _ _ _) as [m|e]|];
    try (destruct H as (Hst & Ho & Hf); unfold one_json_line;
         rewrite Ho; now split).
  destruct H as (w1 & Ho & Hf & _ & _ & _ & H). cbv zeta in H.
  pose proof (service_process_file_outcome os
                (built_transcriber os whisperx args m)
                (whisperx_service.input args) path
                (whisperx_service.language args)
                (negb (whisperx_service.no_diarization args))
                (whisperx_service.min_speakers args)
                (whisperx_service.max_speakers args) w1) as Hp.
  cbv zeta in Hp.
  destruct (whisperx_service.transcribe _ _ _ _ _ _ w1) as [[doc|e] wt];
    simpl in Hp.
  - destruct (open_w os path);
      [destruct Hp as (Hr & Hso & Hsf & _)|destruct Hp as (Hr & Hso & Hsf)];
      rewrite Hr in H; rewrite H; unfold one_json_line; simpl;
      rewrite Hso, Ho; simpl; rewrite Hsf, Hf; simpl.
    + split; [reflexivity|]. split; [exact I|]. now exists path.
    + now repeat split.
  - destruct Hp as (Hr & Hso & Hsf).
    rewrite Hr in H; rewrite H; unfold one_json_line; simpl.
    rewrite Hso, Ho; simpl; rewrite Hsf, Hf. now repeat split.
Qed.

(** An exception inside [transcribe] ends the run with the error document. *)
Lemma service_run_reported (os : os_lib) (whisperx : whisperx_lib)
    (args : whisperx_service.Args) path m e :
  resolved_output os (whisperx_service.input args)
    (whisperx_service.output args) = Ok path ->
  load_model whisperx (whisperx_service.model args)
    (resolved_device whisperx (whisperx_service.device args))
    (resolved_compute_type whisperx (whisperx_service.device args)
       "float16") None = Ok m ->
  (forall w,
      fst (whisperx_service.transcribe (built_transcriber os whisperx args m)
             (whisperx_service.input args)
             (whisperx_service.language args)
             (negb (whisperx_service.no_diarization args))
             (whisperx_service.min_speakers args)
             (whisperx_service.max_speakers args) w) = Raise e) ->
  reported e (process (whisperx_service.main os whisperx args)).
Proof.
  intros Hpath Hload Hraise.
  pose proof (service_main_run os whisperx args) as H. cbv zeta in H.
  rewrite Hpath, Hload in H. destruct H as (w1 & Ho & Hf & _ & _ & _ & H).
  pose proof (service_process_file_outcome os
                (built_transcriber os whisperx args m)
                (whisperx_service.input args) path
                (whisperx_service.language args)
                (negb (whisperx_service.no_diarization args))
                (whisperx_service.min_speakers args)
                (whisperx_service.max_speakers args) w1) as Hp.
  cbv zeta in Hp. rewrite (Hraise w1) in Hp.
  destruct Hp as (Hr & Hso & Hsf). rewrite Hr in H. rewrite H.
  unfold reported. simpl. rewrite Hso, Ho, Hsf, Hf. now repeat split.
Qed.

Lemma simple_run_reported (os : os_lib) (whisper : whisper_lib)
    (args : whisper_simple.Args) path m e :
  resolved_output os (whisper_simple.input args)
    (whisper_simple.output args) = Ok path ->
  whisper_load_model whisper (whisper_simple.model args) = Ok m ->
  whisper_transcribe whisper m (whisper_simple.input args)
    (whisper_simple.language args) = Raise e ->
  reported e (process (whisper_simple.main os whisper args)).
Proof.
  intros Hpath Hload Hraise.
  pose proof (simple_main_run os whisper args) as H. cbv zeta in H.
  rewrite Hpath, Hload in H. destruct H as (w1 & Ho & Hf & H).
  pose proof (simple_process_file_outcome os
                {| whisper_simple.self_model := m |}
                (whisper_simple.input args) path
                (whisper_simple.language args) w1) as Hp.
  cbv zeta in Hp. rewrite simple_transcribe_value in Hp. simpl in Hp.
  rewrite Hraise in Hp.
  destruct Hp as (Hr & Hso & Hsf). rewrite Hr in H. rewrite H.
  unfold reported. simpl. rewrite Hso, Ho, Hsf, Hf. now repeat split.
Qed.

(** ** The runs of [whisperx_processor] *)

Ltac branch :=
  match goal with
  | |- context [match ?x with _ => _ end] =>
      lazymatch x with
      | context [match _ with _ => _ end] => fail
      | _ => destruct x eqn:?
      end
  end.

Lemma processor_format_output_fields (result_ : RawResult) doc :
  whisperx_processor.format_output result_ = Ok doc ->
  (exists c, doc_confidence doc = Some c) /\ doc_speakers doc = None.
Proof.
  unfold whisperx_processor.format_output.
  destruct (raw_segments result_); simpl; [|discriminate].
  destruct (for_each _ _ _); simpl; [|discriminate].
  intros [= <-]. simpl. split; [eauto | reflexivity].
Qed.

(** [transcribe_audio] prints nothing on the standard output; the document
    it returns has a confidence and no speakers; when it raises it has
    written no file. *)
Lemma processor_transcribe_audio_outcome (os : os_lib)
    (whisperx : whisperx_lib) audio_path model_size language device
    compute_type batch_size output_dir w :
  let run := whisperx_processor.transcribe_audio os whisperx audio_path
               model_size language device compute_type batch_size
               output_dir w in
  stdout (snd run) = stdout w
  /\ match fst run with
     | Ok doc =>
         (exists c, doc_confidence doc = Some c) /\ doc_speakers doc = None
     | Raise _ => files (snd run) = files w
     end.
Proof.
  unfold whisperx_processor.transcribe_audio. destruct w as [so se fi di].
  exec. cbv [subscript fst snd].
  repeat (cbv beta iota zeta; branch);
    cbv beta iota zeta; split; try reflexivity;
    match goal with
    | H : whisperx_processor.format_output _ = Ok _ |- _ =>
        exact (processor_format_output_fields _ H)
    end.
Qed.

(** A run of [whisperx_processor] never prints an error document; when
    [transcribe_audio] raises, the run ends with status 1, with nothing on
    the standard output and without a file. *)
Lemma processor_main_run (os : os_lib) (whisperx : whisperx_lib)
    (args : whisperx_processor.Args) :
  let run := process (whisperx_processor.main os whisperx args) in
  (forall error success, ~ In (JsonError error success) (stdout (snd run)))
  /\ match fst (whisperx_processor.transcribe_audio os whisperx
                  (whisperx_processor.audio_path args)
                  (whisperx_processor.model args)
                  (whisperx_processor.language args)
                  (whisperx_processor.device args)
                  (whisperx_processor.compute_type args)
                  (whisperx_processor.batch_size args)
                  (whisperx_processor.output_dir args) started) with
     | Ok doc =>
         fst run = 0%Z
         /\ stdout (snd run)
            = if whisperx_processor.json args
              then [JsonDocument doc]
              else [Text "Transcription complete!";
                    Text ("Language: " ++ doc_language doc);
                    TextSegments (List.length (doc_segments doc));
                    TextConfidence (get (doc_confidence doc) 0)]
     | Raise _ => silent_failure run
     end.
Proof.
  unfold process, whisperx_processor.main, silent_failure.
  pose proof (processor_transcribe_audio_outcome os whisperx
                (whisperx_processor.audio_path args)
                (whisperx_processor.model args)
                (whisperx_processor.language args)
                (whisperx_processor.device args)
                (whisperx_processor.compute_type args)
                (whisperx_processor.batch_size args)
                (whisperx_processor.output_dir args) started) as H.
  cbv zeta in H. cbv [try_except bind].
  destruct (whisperx_processor.transcribe_audio _ _ _ _ _ _ _ _ _ _)
    as [[doc|e] [so se fi di]]; cbv [fst snd stdout files started] in H.
  - destruct H as (Hso & (c & Hc) & _). subst so.
    destruct (whisperx_processor.json args); exec; cbv [subscript];
      rewrite ?Hc; exec; cbv [fst snd get]; rewrite ?Hc;
      (split; [|split; reflexivity]); intros error success H';
      simpl in H'; repeat (destruct H' as [H'|H']; [discriminate|]);
      exact H'.
  - destruct H as (Hso & Hfi). subst so fi. exec. cbv [fst snd].
    split; [|now repeat split]. intros error success [].
Qed.

(** ** The document of a run is built by [format_output] *)

Ltac branch_in H :=
  match type of H with
  | context [match ?x with _ => _ end] =>
      lazymatch x with
      | context [match _ with _ => _ end] => fail
      | _ => destruct x eqn:?
      end
  end.

Lemma simple_transcribe_document (whisper : whisper_lib)
    (self : whisper_simple.SimpleWhisperTranscriber whisper)
    path language w doc :
  fst (whisper_simple.transcribe self path language w) = Ok doc ->
  exists lang result_, whisper_simple.format_output lang result_ = Ok doc.
Proof.
  rewrite simple_transcribe_value.
  destruct (whisper_transcribe _ _ _ _); [eauto | discriminate].
Qed.

Lemma service_transcribe_document (whisperx : whisperx_lib)
    (self : whisperx_service.WhisperXTranscriber whisperx)
    path language enable mn mx w doc :
  fst (whisperx_service.transcribe self path language enable mn mx w)
  = Ok doc ->
  exists lang result_, whisperx_service.format_output lang result_ = Ok doc.
Proof.
  unfold whisperx_service.transcribe. destruct w as [so se fi di].
  exec. cbv [subscript fst]. intros H.
  repeat (cbv beta iota zeta in H; branch_in H);
    cbv beta iota zeta in H; try discriminate; eauto.
Qed.

Lemma processor_transcribe_audio_document (os : os_lib)
    (whisperx : whisperx_lib) audio_path model_size language device
    compute_type batch_size output_dir w doc :
  fst (whisperx_processor.transcribe_audio os whisperx audio_path
         model_size language device compute_type batch_size output_dir w)
  = Ok doc ->
  exists result_, whisperx_processor.format_output result_ = Ok doc.
Proof.
  unfold whisperx_processor.transcribe_audio. destruct w as [so se fi di].
  exec. cbv [subscript fst snd]. intros H.
  repeat (cbv beta iota zeta in H; branch_in H);
    cbv beta iota zeta in H; try discriminate;
    injection H as <-; eauto.
Qed.

(* ================================================================== *)
(** * The claims on the runs *)

(** C8.  When diarization is requested and there is no token, or the
    diarization pipeline fails to load, and the other calls return, the
    run of [whisperx_service] ends with status 0: a warning is on the
    standard error, the object has no diarization model, no diarization is
    announced, and the document built from the aligned result is printed
    and filed. *)
Theorem diarization_degrades_gracefully
    (os : os_lib) (whisperx : whisperx_lib) (args : whisperx_service.Args)
    (path : string) (m : Model whisperx) (audio : Audio whisperx)
    (result_ : RawResult) (ma : AlignModel whisperx * Metadata whisperx)
    (segments : list RawSegment) (aligned : RawResult)
    (items : list RawSegment)
    (Hrequested : whisperx_service.no_diarization args = false)
    (Hcredential :
       truthy (effective_token os (whisperx_service.hf_token args)) = false
       \/ exists e,
            DiarizationPipeline whisperx
              (get (effective_token os (whisperx_service.hf_token args)) "")
              (resolved_device whisperx (whisperx_service.device args))
            = Raise e)
    (Hpath : resolved_output os (whisperx_service.input args)
               (whisperx_service.output args) = Ok path)
    (Hmodel : load_model whisperx (whisperx_service.model args)
                (resolved_device whisperx (whisperx_service.device args))
                (resolved_compute_type whisperx
                   (whisperx_service.device args) "float16") None = Ok m)
    (Haudio : load_audio whisperx (whisperx_service.input args) = Ok audio)
    (Htranscribed :
       model_transcribe whisperx m audio 16 (whisperx_service.language args)
       = Ok result_)
    (Halign_model :
       load_align_model whisperx (get (raw_language result_) "unknown")
         (resolved_device whisperx (whisperx_service.device args)) = Ok ma)
    (Hsegments : raw_segments result_ = Some segments)
    (Haligned :
       align whisperx segments (fst ma) (snd ma) audio
         (resolved_device whisperx (whisperx_service.device args))
       = Ok aligned)
    (Hitems : raw_segments aligned = Some items)
    (Hcomplete : forallb complete_with_words items = true)
    (Hopen : open_w os path = Ok tt) :
  let run := process (whisperx_service.main os whisperx args) in
  exists doc,
    whisperx_service.format_output (get (raw_language result_) "unknown")
      aligned = Ok doc
    /\ fst run = 0%Z
    /\ stdout (snd run) = [JsonDocument doc]
    /\ files (snd run) = [(path, doc)]
    /\ (exists warning,
           In (Printed warning) (stderr (snd run))
           /\ (warning = "Warning: No Hugging Face token provided. Speaker diarization will be disabled."
               \/ exists e,
                    warning
                    = ("Failed to load diarization model: " ++ str_exn e)
                        %string))
    /\ ~ In (Printed "Performing speaker diarization...") (stderr (snd run))
    /\ whisperx_service.self_diarize_model
         (built_transcriber os whisperx args m) = None.
Proof.
  pose proof (service_format_output_complete
                (get (raw_language result_) "unknown") aligned
                Hitems Hcomplete) as Hdoc.
  eexists. split; [exact Hdoc|].
  assert (Hnone : whisperx_service.self_diarize_model
                    (built_transcriber os whisperx args m) = None).
  { unfold built_transcriber. simpl. rewrite Hrequested.
    destruct Hcredential as [Ht|[e He]].
    - now rewrite Ht.
    - rewrite He. now destruct (truthy _). }
  pose proof (service_main_run os whisperx args) as Hrun. cbv zeta in Hrun.
  rewrite Hpath, Hmodel in Hrun.
  destruct Hrun as (w1 & Ho & Hf & Hquiet & Hwarn & Hfail & Hrun).
  pose proof (service_process_file_outcome os
                (built_transcriber os whisperx args m)
                (whisperx_service.input args) path
                (whisperx_service.language args)
                (negb (whisperx_service.no_diarization args))
                (whisperx_service.min_speakers args)
                (whisperx_service.max_speakers args) w1) as Hp.
  destruct (service_transcribe_undiarized
              (built_transcriber os whisperx args m)
              (whisperx_service.input args)
              (whisperx_service.language args)
              (negb (whisperx_service.no_diarization args))
              (whisperx_service.min_speakers args)
              (whisperx_service.max_speakers args) w1
              Hnone Haudio Htranscribed Halign_model Hsegments Haligned)
    as (Hvalue & printed & Hprinted & Hnot).
  cbv zeta in Hp. rewrite Hvalue, Hdoc, Hopen in Hp.
  destruct Hp as (Hr & Hso & Hsf & Hse).
  rewrite Hr in Hrun. rewrite Hrun. cbn [fst snd].
  rewrite Hso, Ho, Hsf, Hf, Hse, Hprinted.
  split; [reflexivity|]. split; [reflexivity|]. split; [reflexivity|].
  split; [|split; [|exact Hnone]].
  - destruct (truthy (effective_token os (whisperx_service.hf_token args)))
      eqn:Ht.
    + destruct Hcredential as [Hc|[e He]]; [discriminate|].
      eexists. split.
      * apply in_or_app. left. apply in_or_app. left.
        exact (Hfail e Hrequested eq_refl He).
      * right. now exists e.
    + eexists. split.
      * apply in_or_app. left. apply in_or_app. left.
        exact (Hwarn Hrequested eq_refl).
      * now left.
  - intros H. apply in_app_or in H. destruct H as [H|H].
    + apply in_app_or in H. destruct H as [H|H]; [now apply Hquiet|].
      now apply Hnot.
    + destruct H as [H|[]]. discriminate.
Qed.

Lemma processor_load_raises (os : os_lib) (whisperx : whisperx_lib)
    audio_path model_size language device compute_type batch_size
    output_dir e w :
  (forall d c, load_model whisperx model_size d c language = Raise e) ->
  fst (whisperx_processor.transcribe_audio os whisperx audio_path
         model_size language device compute_type batch_size output_dir w)
  = Raise e.
Proof.
  intros H. unfold whisperx_processor.transcribe_audio.
  destruct w as [so se fi di]. exec.
  destruct (String.eqb device "cuda" && negb (cuda_is_available whisperx));
    cbv beta iota zeta; rewrite H; reflexivity.
Qed.

Lemma simple_load_raises (os : os_lib) (whisper : whisper_lib)
    (args : whisper_simple.Args) e :
  whisper_load_model whisper (whisper_simple.model args) = Raise e ->
  silent_failure (process (whisper_simple.main os whisper args)).
Proof.
  intros H. pose proof (simple_main_run os whisper args) as Hrun.
  cbv zeta in Hrun. rewrite H in Hrun.
  now destruct (resolved_output os _ _).
Qed.

Lemma service_load_raises (os : os_lib) (whisperx : whisperx_lib)
    (args : whisperx_service.Args) e :
  load_model whisperx (whisperx_service.model args)
    (resolved_device whisperx (whisperx_service.device args))
    (resolved_compute_type whisperx (whisperx_service.device args)
       "float16") None = Raise e ->
  silent_failure (process (whisperx_service.main os whisperx args)).
Proof.
  intros H. pose proof (service_main_run os whisperx args) as Hrun.
  cbv zeta in Hrun. rewrite H in Hrun.
  now destruct (resolved_output os _ _).
Qed.

(** C7, as the scripts have it.  In [whisper_simple] and
    [whisperx_service], when a call inside [transcribe] raises (the
    transcription and, in [whisperx_service], the loading of the audio,
    the alignment, the diarization, the assignment of speakers), the run
    prints one line on the standard output, the error document of the
    exception, writes no file and ends with status 1; no run of these
    scripts prints more than one JSON object.  When the model fails to
    load, the exception is not caught: the run ends with status 1, with
    nothing on the standard output and without a file.  A run of
    [whisperx_processor] never prints an error document: when
    [transcribe_audio] raises, as it does when the model fails to load,
    the run ends with status 1, with nothing on the standard output and
    without a file. *)
Theorem capability_errors_reported
    (os : os_lib) (whisper : whisper_lib) (whisperx : whisperx_lib)
    (e : exn) :
  (forall args path m,
      resolved_output os (whisper_simple.input args)
        (whisper_simple.output args) = Ok path ->
      whisper_load_model whisper (whisper_simple.model args) = Ok m ->
      whisper_transcribe whisper m (whisper_simple.input args)
        (whisper_simple.language args) = Raise e ->
      reported e (process (whisper_simple.main os whisper args)))
  /\ (forall args,
         whisper_load_model whisper (whisper_simple.model args) = Raise e ->
         silent_failure (process (whisper_simple.main os whisper args)))
  /\ (forall args,
         one_json_line (fun _ => True)
           (process (whisper_simple.main os whisper args)))
  /\ (forall args path m,
         resolved_output os (whisperx_service.input args)
           (whisperx_service.output args) = Ok path ->
         load_model whisperx (whisperx_service.model args)
           (resolved_device whisperx (whisperx_service.device args))
           (resolved_compute_type whisperx (whisperx_service.device args)
              "float16") None = Ok m ->
         capability_raises (built_transcriber os whisperx args m)
           (whisperx_service.input args) (whisperx_service.language args)
           (negb (whisperx_service.no_diarization args))
           (whisperx_service.min_speakers args)
           (whisperx_service.max_speakers args) e ->
         reported e (process (whisperx_service.main os whisperx args)))
  /\ (forall args,
         load_model whisperx (whisperx_service.model args)
           (resolved_device whisperx (whisperx_service.device args))
           (resolved_compute_type whisperx (whisperx_service.device args)
              "float16") None = Raise e ->
         silent_failure (process (whisperx_service.main os whisperx args)))
  /\ (forall args,
         one_json_line (fun _ => True)
           (process (whisperx_service.main os whisperx args)))
  /\ (forall args,
         fst (whisperx_processor.transcribe_audio os whisperx
                (whisperx_processor.audio_path args)
                (whisperx_processor.model args)
                (whisperx_processor.language args)
                (whisperx_processor.device args)
                (whisperx_processor.compute_type args)
                (whisperx_processor.batch_size args)
                (whisperx_processor.output_dir args) started) = Raise e ->
         silent_failure (process (whisperx_processor.main os whisperx args)))
  /\ (forall args,
         (forall d c,
             load_model whisperx (whisperx_processor.model args) d c
               (whisperx_processor.language args) = Raise e) ->
         silent_failure (process (whisperx_processor.main os whisperx args)))
  /\ (forall args error success,
         ~ In (JsonError error success)
             (stdout (snd (process
                             (whisperx_processor.main os whisperx args))))).
Proof.
  assert (Hprocessor :
    forall args,
      fst (whisperx_processor.transcribe_audio os whisperx
             (whisperx_processor.audio_path args)
             (whisperx_processor.model args)
             (whisperx_processor.language args)
             (whisperx_processor.device args)
             (whisperx_processor.compute_type args)
             (whisperx_processor.batch_size args)
             (whisperx_processor.output_dir args) started) = Raise e ->
      silent_failure (process (whisperx_processor.main os whisperx args))).
  { intros args H.
    pose proof (processor_main_run os whisperx args) as Hrun.
    cbv zeta in Hrun. rewrite H in Hrun. apply Hrun. }
  repeat apply conj.
  - intros args path m. apply simple_run_reported.
  - intros args. apply simple_load_raises.
  - intros args. generalize (simple_one_json_line os whisper args).
    unfold one_json_line.
    destruct (stdout _) as [|[doc|error success|s|n|q] [|l ls]]; tauto.
  - intros args path m Hpath Hload Hraise.
    apply (service_run_reported os whisperx args Hpath Hload).
    intros w. now apply service_transcribe_raises.
  - intros args. apply service_load_raises.
  - intros args. apply service_one_json_line.
  - exact Hprocessor.
  - intros args H. apply Hprocessor. now apply processor_load_raises.
  - intros args. apply (processor_main_run os whisperx args).
Qed.

(* ================================================================== *)
(** * The claims at the scenarios *)

Lemma speaker_statistics_witness :
  forallb complete_with_words interview_segments = true
  /\ (exists s, In s interview_segments
                /\ raw_speaker s = Some "SPEAKER_00")
  /\ exists doc speakers st,
       whisperx_service.format_output "en" interview = Ok doc
       /\ doc_speakers doc = Some speakers
       /\ In st speakers
       /\ spk_id st = "SPEAKER_00"
       /\ (forall st', In st' speakers -> spk_id st' = "SPEAKER_00"
                       -> st' = st)
       /\ spk_segments st
          = List.length (filter (carries "SPEAKER_00") interview_segments)
       /\ spk_total_duration st
          == total_duration (filter (carries "SPEAKER_00")
                               interview_segments).
Proof.
  assert (H : exists s, In s interview_segments
                        /\ raw_speaker s = Some "SPEAKER_00").
  { eexists. split; [left; reflexivity | reflexivity]. }
  split; [reflexivity|]. split; [exact H|].
  exact (@speaker_statistics "en" interview interview_segments "SPEAKER_00"
           eq_refl eq_refl H).
Defined.

Lemma order_preserved_witness :
  forallb complete_with_words interview_segments = true
  /\ exists doc speakers,
       whisperx_service.format_output "en" interview = Ok doc
       /\ doc_speakers doc = Some speakers
       /\ List.length (doc_segments doc) = List.length interview_segments
       /\ (forall i s,
              nth_error interview_segments i = Some s ->
              exists seg,
                nth_error (doc_segments doc) i = Some seg
                /\ derived_from s seg
                /\ seg_speaker seg = raw_speaker s)
       /\ (forall id,
              In id (map spk_id speakers)
              <-> exists s, In s interview_segments
                            /\ raw_speaker s = Some id)
       /\ StronglySorted
            (fun a b =>
               (first_appearance a interview_segments
                < first_appearance b interview_segments)%nat)
            (map spk_id speakers).
Proof.
  split; [reflexivity|].
  exact (proj1 (@order_preserved "en" interview interview_segments
                  eq_refl eq_refl)).
Defined.

Lemma text_trimmed_confidence_normalised_witness :
  forallb complete_with_words interview_segments = true
  /\ exists doc,
       whisper_simple.format_output "en" interview = Ok doc
       /\ forall i s text,
            nth_error interview_segments i = Some s ->
            raw_text s = Some text ->
            exists seg,
              nth_error (doc_segments doc) i = Some seg
              /\ trims text (seg_text seg)
              /\ seg_confidence seg = 1.
Proof.
  split; [reflexivity|].
  exact (proj1 (@text_trimmed_confidence_normalised "en" interview
                  interview_segments eq_refl eq_refl)).
Defined.

Lemma words_in_order_witness :
  forallb complete_with_words interview_segments = true
  /\ exists doc,
       whisperx_processor.format_output interview = Ok doc
       /\ forall i s ws,
            nth_error interview_segments i = Some s ->
            raw_words s = Some ws ->
            exists seg,
              nth_error (doc_segments doc) i = Some seg
              /\ seg_words seg = Some (HandedOn ws).
Proof.
  split; [reflexivity|].
  exact (proj2 (proj2 (@words_in_order "en" interview interview_segments
                         eq_refl eq_refl))).
Defined.

(** C5 fails in [whisperx_service]: the first segment of the scenario has
    the score 0.9, and the confidence of the segment of the document is
    not 0.9. *)
Lemma segment_confidence_counterexample :
  ~ (exists doc seg,
        whisperx_service.format_output "en" hi_there = Ok doc
        /\ nth_error (doc_segments doc) 0 = Some seg
        /\ seg_confidence seg == 9 # 10).
Proof.
  intros (doc & seg & H & Hn & Hc). vm_compute in H.
  injection H as <-. simpl in Hn. injection Hn as <-. discriminate.
Qed.

(** C6 fails in [whisperx_service]: the word of the first segment of the
    interview has the score 0.5 and no [confidence]; the word of the
    document has a confidence, and it is not 0.5. *)
Lemma word_confidence_counterexample :
  ~ (exists doc seg ws w,
        whisperx_service.format_output "en" interview = Ok doc
        /\ nth_error (doc_segments doc) 0 = Some seg
        /\ seg_words seg = Some (Built ws)
        /\ nth_error ws 0 = Some w
        /\ word_confidence w == 1 # 2).
Proof.
  intros (doc & seg & ws & w & H & Hn & Hws & Hw & Hc). vm_compute in H.
  injection H as <-. simpl in Hn. injection Hn as <-.
  simpl in Hws. injection Hws as <-. simpl in Hw. injection Hw as <-.
  discriminate.
Qed.

Lemma diarization_degrades_gracefully_witness :
  let whisperx :=
    scenario_whisperx (Ok tt) (Ok tt) (Ok interview) (Ok interview)
      (Raise (Exception "no access to the pipeline")) in
  let run :=
    process (whisperx_service.main scenario_os whisperx service_args) in
  truthy (effective_token scenario_os
            (whisperx_service.hf_token service_args)) = false
  /\ exists doc,
       whisperx_service.format_output "en" interview = Ok doc
       /\ fst run = 0%Z
       /\ stdout (snd run) = [JsonDocument doc]
       /\ files (snd run) = [("talk.json", doc)].
Proof.
  split; [reflexivity|].
  destruct (@diarization_degrades_gracefully scenario_os
              (scenario_whisperx (Ok tt) (Ok tt) (Ok interview)
                 (Ok interview)
                 (Raise (Exception "no access to the pipeline")))
              service_args "talk.json" tt tt interview (tt, tt)
              interview_segments interview interview_segments
              eq_refl (or_introl eq_refl) eq_refl eq_refl eq_refl eq_refl
              eq_refl eq_refl eq_refl eq_refl eq_refl eq_refl)
    as (doc & Hdoc & Hst & Hso & Hf & _).
  exists doc. repeat split; assumption.
Defined.

Lemma capability_errors_reported_witness :
  let whisper :=
    scenario_whisper (Ok tt) (Raise (Exception "out of memory")) in
  whisper_transcribe whisper tt "talk.wav" None
  = Raise (Exception "out of memory")
  /\ reported (Exception "out of memory")
       (process (whisper_simple.main scenario_os whisper simple_args)).
Proof.
  split; [reflexivity|].
  exact (proj1 (@capability_errors_reported scenario_os
                  (scenario_whisper (Ok tt)
                     (Raise (Exception "out of memory")))
                  (scenario_whisperx (Ok tt) (Ok tt) (Ok interview)
                     (Ok interview) (Ok tt))
                  (Exception "out of memory"))
           simple_args "talk.json" tt eq_refl eq_refl eq_refl).
Defined.

(** C7 fails in [whisperx_processor]: when the model fails to load, the
    run prints no error document; and in [whisper_simple], where the
    failure of the model to load is not caught. *)
Lemma capability_error_counterexample :
  ~ (exists error success,
        In (JsonError error success)
          (stdout (snd (process
                          (whisperx_processor.main scenario_os
                             (scenario_whisperx
                                (Raise (Exception "model not found"))
                                (Ok tt) (Ok interview) (Ok interview)
                                (Ok tt))
                             processor_args)))))
  /\ ~ (exists error success,
           In (JsonError error success)
             (stdout (snd (process
                             (whisper_simple.main scenario_os
                                (scenario_whisper
                                   (Raise (Exception "model not found"))
                                   (Ok interview))
                                simple_args))))).
Proof.
  split; intros (error & success & H); vm_compute in H; exact H.
Qed.

(* ================================================================== *)
(** * Further properties *)

(** ** Missing keys *)

Lemma missing_key_complete (s : RawSegment) :
  missing_key s = None <-> complete_segment s = true.
Proof.
  unfold missing_key, complete_segment.
  destruct (raw_start s), (raw_end s), (raw_text s); simpl;
    split; (reflexivity || discriminate).
Qed.

Lemma first_of_forallb {A} (f : A -> option string) (g : A -> bool)
    (l : list A) :
  (forall x, f x = None <-> g x = true) ->
  first_of f l = None <-> forallb g l = true.
Proof.
  intros H. induction l as [|x l IH]; simpl; [tauto|].
  rewrite andb_true_iff, <- IH, <- H.
  destruct (f x); split; try tauto; try discriminate.
Qed.

Lemma simple_seg_data_missing (s : RawSegment) :
  whisper_simple.seg_data s
  = match missing_key s with
    | Some k => Raise (KeyError k)
    | None => Ok (simple_segment s)
    end.
Proof.
  unfold whisper_simple.seg_data, missing_key, simple_segment.
  destruct (raw_start s), (raw_end s), (raw_text s); reflexivity.
Qed.

Lemma simple_loop_missing (items : list RawSegment) :
  forall acc,
    for_each whisper_simple.loop_body items acc
    = match first_of missing_key items with
      | Some k => Raise (KeyError k)
      | None => Ok (acc ++ map simple_segment items)
      end.
Proof.
  induction items as [|s items IH]; intros acc; cbn [for_each first_of map].
  - now rewrite app_nil_r.
  - unfold whisper_simple.loop_body at 1. rewrite simple_seg_data_missing.
    destruct (missing_key s); cbn [rbind]; [reflexivity|].
    rewrite IH. destruct (first_of missing_key items); [reflexivity|].
    now rewrite <- app_assoc.
Qed.

(** X1.  [whisper_simple] builds its document exactly when every segment
    has [start], [end] and [text]; otherwise it raises the [KeyError] of
    the first key that is missing, in the order of the segments.  A result
    without [segments] gives a document without segments, and the words
    never make it fail. *)
Theorem simple_format_output_missing_key
    (lang : string) (result_ : RawResult) :
  whisper_simple.format_output lang result_
  = match first_of missing_key (get (raw_segments result_) []) with
    | Some k => Raise (KeyError k)
    | None =>
        Ok {| doc_language := lang;
              doc_segments :=
                map simple_segment (get (raw_segments result_) []);
              doc_speakers := Some [];
              doc_confidence := None |}
    end.
Proof.
  unfold whisper_simple.format_output. rewrite simple_loop_missing.
  now destruct (first_of missing_key _).
Qed.

Lemma processor_seg_data_missing (n : nat) (s : RawSegment) :
  whisperx_processor.seg_data n s
  = match missing_key s with
    | Some k => Raise (KeyError k)
    | None => Ok (processor_segment n s)
    end.
Proof.
  unfold whisperx_processor.seg_data, missing_key, processor_segment.
  now destruct (raw_start s), (raw_end s), (raw_text s).
Qed.

Lemma processor_loop_missing (items : list RawSegment) :
  forall acc,
    for_each whisperx_processor.loop_body items acc
    = match first_of missing_key items with
      | Some k => Raise (KeyError k)
      | None => Ok (acc ++ numbered (List.length acc) items)
      end.
Proof.
  induction items as [|s items IH]; intros acc;
    cbn [for_each first_of numbered].
  - now rewrite app_nil_r.
  - unfold whisperx_processor.loop_body at 1.
    rewrite processor_seg_data_missing.
    destruct (missing_key s); cbn [rbind]; [reflexivity|].
    rewrite IH. destruct (first_of missing_key items); [reflexivity|].
    rewrite <- app_assoc, length_app. cbn [List.length app].
    now rewrite Nat.add_1_r.
Qed.

(** X2.  [whisperx_processor] raises [KeyError('segments')] when the
    aligned result has no segments, the [KeyError] of the first missing
    key when a segment lacks [start], [end] or [text], and otherwise
    builds the document: segments numbered from 0, and the overall
    confidence. *)
Theorem processor_format_output_missing_key (result_ : RawResult) :
  whisperx_processor.format_output result_
  = match raw_segments result_ with
    | None => Raise (KeyError "segments")
    | Some items =>
        match first_of missing_key items with
        | Some k => Raise (KeyError k)
        | None =>
            Ok {| doc_language := get (raw_language result_) "unknown";
                  doc_segments := numbered 0 items;
                  doc_speakers := None;
                  doc_confidence :=
                    Some (whisperx_processor.overall_confidence
                            (numbered 0 items)) |}
        end
    end.
Proof.
  unfold whisperx_processor.format_output.
  destruct (raw_segments result_) as [items|]; cbn [subscript rbind];
    [|reflexivity].
  rewrite processor_loop_missing.
  now destruct (first_of missing_key items).
Qed.

Lemma service_word_data_missing (w : RawWord) :
  whisperx_service.word_data w
  = match missing_word_key w with
    | Some k => Raise (KeyError k)
    | None => Ok (service_word w)
    end.
Proof.
  unfold whisperx_service.word_data, missing_word_key, service_word.
  destruct (raw_word_word w), (raw_word_start w), (raw_word_end w);
    reflexivity.
Qed.

Lemma service_words_missing (ws : list RawWord) :
  comprehension whisperx_service.word_data ws
  = match first_of missing_word_key ws with
    | Some k => Raise (KeyError k)
    | None => Ok (map service_word ws)
    end.
Proof.
  induction ws as [|w ws IH]; cbn [comprehension first_of map];
    [reflexivity|].
  rewrite IH, service_word_data_missing.
  destruct (missing_word_key w); [reflexivity|].
  now destruct (first_of missing_word_key ws).
Qed.

Lemma service_loop_body_missing (s : RawSegment) segments d :
  whisperx_service.loop_body (segments, d) s
  = match missing_key_with_words s with
    | Some k => Raise (KeyError k)
    | None => Ok (segments ++ [service_segment s], tracked d s)
    end.
Proof.
  unfold whisperx_service.loop_body, missing_key_with_words, missing_key,
    service_segment, tracked, duration.
  destruct (raw_start s), (raw_end s), (raw_text s);
    cbn [subscript rbind get]; try reflexivity.
  destruct (raw_words s) as [ws|]; cbn [get first_of option_map rbind].
  - rewrite service_words_missing.
    now destruct (first_of missing_word_key ws).
  - reflexivity.
Qed.

Lemma service_loop_missing (items : list RawSegment) :
  forall segments d,
    for_each whisperx_service.loop_body items (segments, d)
    = match first_of missing_key_with_words items with
      | Some k => Raise (KeyError k)
      | None =>
          Ok (segments ++ map service_segment items,
              fold_left tracked items d)
      end.
Proof.
  induction items as [|s items IH]; intros segments d;
    cbn [for_each first_of map fold_left].
  - now rewrite app_nil_r.
  - rewrite service_loop_body_missing.
    destruct (missing_key_with_words s); [reflexivity|].
    rewrite IH. destruct (first_of missing_key_with_words items);
      [reflexivity|].
    now rewrite <- app_assoc.
Qed.

(** X3.  [whisperx_service] raises [KeyError('segments')] when the result
    has no segments; otherwise it goes through the segments in order and
    raises the [KeyError] of the first key that is missing: [start], [end]
    or [text] of a segment, then [word], [start] or [end] of one of its
    words.  When nothing is missing it builds the document. *)
Theorem service_format_output_missing_key
    (lang : string) (result_ : RawResult) :
  whisperx_service.format_output lang result_
  = match raw_segments result_ with
    | None => Raise (KeyError "segments")
    | Some items =>
        match first_of missing_key_with_words items with
        | Some k => Raise (KeyError k)
        | None =>
            Ok {| doc_language := lang;
                  doc_segments := map service_segment items;
                  doc_speakers := Some (values (fold_left tracked items []));
                  doc_confidence := None |}
        end
    end.
Proof.
  unfold whisperx_service.format_output.
  destruct (raw_segments result_) as [items|]; cbn [subscript rbind];
    [|reflexivity].
  rewrite service_loop_missing.
  now destruct (first_of missing_key_with_words items).
Qed.

(** ** Bounds of the overall confidence *)






(** ** Totals of the speaker statistics *)









Lemma total_duration_nonneg (ss : list RawSegment) :
  (forall s, In s ss -> get (raw_start s) 0 <= get (raw_end s) 0) ->
  0 <= total_duration ss.
Proof.
  unfold total_duration.
  induction ss as [|s ss IH]; intros H; cbn [map fold_right].
  - apply Qle_refl.
  - apply Qle_trans with (0 + 0); [discriminate|].
    apply Qplus_le_compat.
    + unfold duration, Qminus. apply (proj1 (Qle_minus_iff _ _)).
      apply H. now left.
    + apply IH. intros x Hx. apply H. now right.
Qed.

(** X6.  In [whisperx_service] every speaker of the list stands for at
    least one segment; the list is empty exactly when no input segment has
    a speaker label; and when no segment ends before it starts, no total
    duration is negative. *)
Theorem speaker_statistics_positive
    (lang : string) (result_ : RawResult) (items : list RawSegment)
    (Hsegments : raw_segments result_ = Some items)
    (Hcomplete : forallb complete_with_words items = true) :
  exists doc speakers,
    whisperx_service.format_output lang result_ = Ok doc
    /\ doc_speakers doc = Some speakers
    /\ (forall st, In st speakers -> (1 <= spk_segments st)%nat)
    /\ (speakers = [] <-> forall s, In s items -> raw_speaker s = None)
    /\ ((forall s, In s items -> get (raw_start s) 0 <= get (raw_end s) 0)
        -> forall st, In st speakers -> 0 <= spk_total_duration st).
Proof.
  rewrite (service_format_output_complete lang result_ Hsegments Hcomplete).
  eexists. eexists. split; [reflexivity|]. split; [reflexivity|].
  assert (Hentry : forall st,
             In st (values (fold_left tracked items [])) ->
             holds (spk_id st) items (Some st)).
  { intros st Hin. unfold values in Hin. apply in_map_iff in Hin.
    destruct Hin as ([k v] & Hv & Hin). cbn in Hv. subst v.
    pose proof (tracked_ids items k st Hin) as Hk. subst k.
    pose proof (tracked_holds items (spk_id st)) as Hh.
    now rewrite (In_lookup _ _ _ (tracked_keys_NoDup items) Hin) in Hh. }
  split; [|split].
  - intros st Hin. destruct (Hentry st Hin) as (_ & Hn & _ & Hne).
    rewrite Hn. destruct (filter _ items); [now elim Hne | cbn; lia].
  - split.
    + intros Hnil s Hs. destruct (raw_speaker s) as [id|] eqn:E;
        [|reflexivity].
      assert (Hk : In id (keys (fold_left tracked items []))).
      { apply tracked_keys_carried, carries_filter. now exists s. }
      rewrite <- tracked_values_ids, Hnil in Hk. destruct Hk.
    + intros Hnone.
      destruct (values (fold_left tracked items [])) as [|st l] eqn:E;
        [reflexivity|].
      destruct (Hentry st (or_introl eq_refl)) as (_ & _ & _ & Hne).
      apply carries_filter in Hne. destruct Hne as (s & Hs & Hsp).
      rewrite (Hnone s Hs) in Hsp. discriminate.
  - intros Hordered st Hin. destruct (Hentry st Hin) as (_ & _ & Hd & _).
    rewrite Hd. apply total_duration_nonneg.
    intros s Hs. apply filter_In in Hs. now apply Hordered.
Qed.

Lemma speaker_statistics_positive_witness :
  forallb complete_with_words interview_segments = true
  /\ exists doc speakers,
       whisperx_service.format_output "en" interview = Ok doc
       /\ doc_speakers doc = Some speakers
       /\ (forall st, In st speakers -> (1 <= spk_segments st)%nat).
Proof.
  split; [reflexivity|].
  destruct (@speaker_statistics_positive "en" interview interview_segments
              eq_refl eq_refl) as (doc & speakers & H1 & H2 & H3 & _).
  exists doc, speakers. repeat split; assumption.
Defined.

(** ** [whisperx_processor]: device, files and logs *)

(** X7.  When CUDA is requested and not available, [transcribe_audio] logs
    a warning and then does what it does for the device [cpu] with the
    compute type [float32]: the requested compute type is dropped. *)
Theorem processor_cuda_fallback
    (os : os_lib) (whisperx : whisperx_lib)
    (audio_path model_size : string) (language : option string)
    (compute_type : string) (batch_size : nat) (output_dir : option string)
    (w : World)
    (Hcuda : cuda_is_available whisperx = false) :
  whisperx_processor.transcribe_audio os whisperx audio_path model_size
    language "cuda" compute_type batch_size output_dir w
  = whisperx_processor.transcribe_audio os whisperx audio_path model_size
      language "cpu" "float32" batch_size output_dir
      {| stdout := stdout w;
         stderr :=
           stderr w
           ++ [Log "WARNING"
                 "CUDA requested but not available, falling back to CPU"];
         files := files w;
         dirs := dirs w |}.
Proof.
  unfold whisperx_processor.transcribe_audio. rewrite Hcuda.
  destruct w as [so se fi di]. reflexivity.
Qed.

Lemma processor_cuda_fallback_witness :
  let whisperx :=
    scenario_whisperx (Ok tt) (Ok tt) (Ok interview) (Ok interview)
      (Ok tt) in
  cuda_is_available whisperx = false
  /\ whisperx_processor.transcribe_audio scenario_os whisperx "talk.wav"
       "base" None "cuda" "float16" 16 None started
     = whisperx_processor.transcribe_audio scenario_os whisperx "talk.wav"
         "base" None "cpu" "float32" 16 None
         {| stdout := [];
            stderr :=
              [Log "WARNING"
                 "CUDA requested but not available, falling back to CPU"];
            files := [];
            dirs := [] |}.
Proof.
  split; [reflexivity|].
  exact (@processor_cuda_fallback scenario_os
           (scenario_whisperx (Ok tt) (Ok tt) (Ok interview) (Ok interview)
              (Ok tt))
           "talk.wav" "base" None "float16" 16 None started eq_refl).
Defined.

Lemma processor_transcribe_audio_files
    (os : os_lib) (whisperx : whisperx_lib)
    (audio_path model_size : string) (language : option string)
    (device compute_type : string) (batch_size : nat)
    (output_dir : option string) (w : World) :
  let run := whisperx_processor.transcribe_audio os whisperx audio_path
               model_size language device compute_type batch_size
               output_dir w in
  match fst run with
  | Ok doc =>
      if truthy output_dir
      then files (snd run)
           = files w
             ++ [(transcription_path os (get output_dir "") audio_path,
                  doc)]
           /\ dirs (snd run) = dirs w ++ [get output_dir ""]
      else files (snd run) = files w /\ dirs (snd run) = dirs w
  | Raise _ => files (snd run) = files w
  end.
Proof.
  unfold whisperx_processor.transcribe_audio. destruct w as [so se fi di].
  exec. cbv [subscript fst snd].
  repeat (cbv beta iota zeta; branch);
    cbv beta iota zeta; try reflexivity; try (split; reflexivity);
    try discriminate.
Qed.

(** X8.  [transcribe_audio] writes a file only when it is given an output
    directory and has built the document: it then creates the directory
    and writes the document it returns to the transcription path.  Without
    an output directory, or when it raises, it writes no file. *)
Theorem processor_writes_on_request
    (os : os_lib) (whisperx : whisperx_lib)
    (audio_path model_size : string) (language : option string)
    (device compute_type : string) (batch_size : nat)
    (output_dir : option string) (w : World) :
  let run := whisperx_processor.transcribe_audio os whisperx audio_path
               model_size language device compute_type batch_size
               output_dir w in
  match fst run with
  | Ok doc =>
      if truthy output_dir
      then files (snd run)
           = files w
             ++ [(transcription_path os (get output_dir "") audio_path,
                  doc)]
           /\ dirs (snd run) = dirs w ++ [get output_dir ""]
      else files (snd run) = files w /\ dirs (snd run) = dirs w
  | Raise _ => files (snd run) = files w
  end.
Proof.
  apply processor_transcribe_audio_files.
Qed.

(** X18.  When [transcribe_audio] returns a document, the run of
    [whisperx_processor] ends with status 0; with [--json] it prints that
    document and nothing else, without it the four lines of the summary;
    and the only file of the run is that same document at the
    transcription path, when an output directory was given. *)
Theorem processor_success
    (os : os_lib) (whisperx : whisperx_lib)
    (args : whisperx_processor.Args) (doc : Document)
    (Hreturns :
       fst (whisperx_processor.transcribe_audio os whisperx
              (whisperx_processor.audio_path args)
              (whisperx_processor.model args)
              (whisperx_processor.language args)
              (whisperx_processor.device args)
              (whisperx_processor.compute_type args)
              (whisperx_processor.batch_size args)
              (whisperx_processor.output_dir args) started) = Ok doc) :
  let run := process (whisperx_processor.main os whisperx args) in
  fst run = 0%Z
  /\ (exists confidence,
         doc_confidence doc = Some confidence
         /\ stdout (snd run)
            = if whisperx_processor.json args
              then [JsonDocument doc]
              else [Text "Transcription complete!";
                    Text ("Language: " ++ doc_language doc);
                    TextSegments (List.length (doc_segments doc));
                    TextConfidence confidence])
  /\ files (snd run)
     = if truthy (whisperx_processor.output_dir args)
       then [(transcription_path os
                (get (whisperx_processor.output_dir args) "")
                (whisperx_processor.audio_path args), doc)]
       else [].
Proof.
  pose proof (processor_transcribe_audio_outcome os whisperx
                (whisperx_processor.audio_path args)
                (whisperx_processor.model args)
                (whisperx_processor.language args)
                (whisperx_processor.device args)
                (whisperx_processor.compute_type args)
                (whisperx_processor.batch_size args)
                (whisperx_processor.output_dir args) started) as Hout.
  pose proof (processor_transcribe_audio_files os whisperx
                (whisperx_processor.audio_path args)
                (whisperx_processor.model args)
                (whisperx_processor.language args)
                (whisperx_processor.device args)
                (whisperx_processor.compute_type args)
                (whisperx_processor.batch_size args)
                (whisperx_processor.output_dir args) started) as Hfiles.
  cbv zeta in Hout, Hfiles.
  unfold process, whisperx_processor.main. cbv [try_except bind].
  destruct (whisperx_processor.transcribe_audio _ _ _ _ _ _ _ _ _ _)
    as [[doc'|e] [so se fi di]];
    cbv [fst snd stdout files dirs started] in Hout, Hfiles, Hreturns;
    [|discriminate].
  injection Hreturns as ->.
  destruct Hout as (Hso & (c & Hc) & _). subst so.
  assert (Hfi : fi = if truthy (whisperx_processor.output_dir args)
                     then [(transcription_path os
                              (get (whisperx_processor.output_dir args) "")
                              (whisperx_processor.audio_path args), doc)]
                     else []).
  { destruct (truthy (whisperx_processor.output_dir args));
      now destruct Hfiles. }
  clear Hfiles.
  destruct (whisperx_processor.json args); exec; cbv [subscript];
    rewrite ?Hc; exec; cbv [fst snd];
    (split; [reflexivity|]); (split; [|exact Hfi]);
    exists c; (split; reflexivity).
Qed.

Lemma processor_success_witness :
  let whisperx :=
    scenario_whisperx (Ok tt) (Ok tt) (Ok interview) (Ok interview)
      (Ok tt) in
  let run :=
    process (whisperx_processor.main scenario_os whisperx processor_args) in
  exists doc,
    whisperx_processor.format_output interview = Ok doc
    /\ fst run = 0%Z
    /\ files (snd run) = [("out/talk.wav_transcription.json", doc)].
Proof.
  eexists. split; [vm_compute; reflexivity|].
  destruct (@processor_success scenario_os
              (scenario_whisperx (Ok tt) (Ok tt) (Ok interview)
                 (Ok interview) (Ok tt))
              processor_args _ eq_refl) as (Hst & _ & Hf).
  split; [exact Hst | exact Hf].
Defined.

Lemma processor_transcribe_audio_failure_log (os : os_lib)
    (whisperx : whisperx_lib) audio_path model_size language device
    compute_type batch_size output_dir w e :
  let run := whisperx_processor.transcribe_audio os whisperx audio_path
               model_size language device compute_type batch_size
               output_dir w in
  fst run = Raise e ->
  exists before,
    stderr (snd run)
    = before ++ [Log "ERROR" ("Transcription failed: " ++ str_exn e)].
Proof.
  unfold whisperx_processor.transcribe_audio. destruct w as [so se fi di].
  exec. cbv [subscript fst snd].
  repeat (cbv beta iota zeta; branch);
    cbv beta iota zeta; intros H; try discriminate;
    injection H as <-; eexists; reflexivity.
Qed.

(** X9.  When [transcribe_audio] raises, the run of [whisperx_processor]
    ends with status 1 and the last two records of its log are the two
    errors of the exception: the one [transcribe_audio] logs before raising
    it again, and the one [main] logs. *)
Theorem processor_failure_logged_twice
    (os : os_lib) (whisperx : whisperx_lib)
    (args : whisperx_processor.Args) (e : exn)
    (Hraise :
       fst (whisperx_processor.transcribe_audio os whisperx
              (whisperx_processor.audio_path args)
              (whisperx_processor.model args)
              (whisperx_processor.language args)
              (whisperx_processor.device args)
              (whisperx_processor.compute_type args)
              (whisperx_processor.batch_size args)
              (whisperx_processor.output_dir args) started) = Raise e) :
  let run := process (whisperx_processor.main os whisperx args) in
  fst run = 1%Z
  /\ exists before,
       stderr (snd run)
       = before
         ++ [Log "ERROR" ("Transcription failed: " ++ str_exn e);
             Log "ERROR" ("Error: " ++ str_exn e)].
Proof.
  pose proof (@processor_transcribe_audio_failure_log os whisperx
                (whisperx_processor.audio_path args)
                (whisperx_processor.model args)
                (whisperx_processor.language args)
                (whisperx_processor.device args)
                (whisperx_processor.compute_type args)
                (whisperx_processor.batch_size args)
                (whisperx_processor.output_dir args) started e) as Hlog.
  cbv zeta in Hlog. specialize (Hlog Hraise). destruct Hlog as (before & Hb).
  unfold process, whisperx_processor.main. cbv [try_except bind].
  destruct (whisperx_processor.transcribe_audio _ _ _ _ _ _ _ _ _ _)
    as [[doc|e'] [so se fi di]]; cbn [fst snd stderr] in *;
    [discriminate|].
  injection Hraise as ->. subst se. exec. cbn [fst snd].
  split; [reflexivity|]. exists before. now rewrite <- app_assoc.
Qed.

Lemma processor_failure_logged_twice_witness :
  let whisperx :=
    scenario_whisperx (Raise (Exception "model not found")) (Ok tt)
      (Ok interview) (Ok interview) (Ok tt) in
  let run :=
    process (whisperx_processor.main scenario_os whisperx processor_args) in
  fst run = 1%Z
  /\ exists before,
       stderr (snd run)
       = before
         ++ [Log "ERROR" "Transcription failed: model not found";
             Log "ERROR" "Error: model not found"].
Proof.
  exact (@processor_failure_logged_twice scenario_os
           (scenario_whisperx (Raise (Exception "model not found")) (Ok tt)
              (Ok interview) (Ok interview) (Ok tt))
           processor_args (Exception "model not found") eq_refl).
Defined.

(** ** The language of the document *)



(** X11.  Whenever [transcribe] of [whisper_simple] or of
    [whisperx_service] returns a document, its language is the one the
    transcription detected, ["unknown"] when the result of the
    transcription has none. *)
Theorem detected_language_in_document
    (whisper : whisper_lib) (whisperx : whisperx_lib)
    (simple : whisper_simple.SimpleWhisperTranscriber whisper)
    (service : whisperx_service.WhisperXTranscriber whisperx)
    (path : string) (language : option string) (enable : bool)
    (mn mx : option Z) (w : World) (doc : Document) :
  (fst (whisper_simple.transcribe simple path language w) = Ok doc ->
   exists transcribed,
     whisper_transcribe whisper (whisper_simple.self_model simple) path
       language = Ok transcribed
     /\ doc_language doc = get (raw_language transcribed) "unknown")
  /\ (fst (whisperx_service.transcribe service path language enable mn mx w)
      = Ok doc ->
      exists audio transcribed,
        load_audio whisperx path = Ok audio
        /\ model_transcribe whisperx (whisperx_service.self_model service)
             audio 16 language = Ok transcribed
        /\ doc_language doc = get (raw_language transcribed) "unknown").
Proof.
  split.
  - rewrite simple_transcribe_value.
    destruct (whisper_transcribe _ _ _ _) as [r|e]; [|discriminate].
    intros H. exists r. split; [reflexivity|].
    revert H. unfold whisper_simple.format_output.
    destruct (for_each _ _ _); cbn [rbind]; [|discriminate].
    now intros [= <-].
  - unfold whisperx_service.transcribe. destruct w as [so se fi di].
    exec. cbv [subscript fst]. intros H.
    repeat (cbv beta iota zeta in H; branch_in H);
      cbv beta iota zeta in H; try discriminate;
      (eexists; eexists; split; [reflexivity|]; split; [eassumption|]);
      revert H; unfold whisperx_service.format_output;
      match goal with
      | |- context [raw_segments ?a] =>
          destruct (raw_segments a); cbn [subscript rbind];
          [|discriminate]
      end;
      (destruct (for_each _ _ _); cbn [rbind]; [|discriminate]);
      now intros [= <-].
Qed.

Lemma detected_language_in_document_witness :
  let whisper := scenario_whisper (Ok tt) (Ok aligned_interview) in
  let simple :=
    @whisper_simple.Build_SimpleWhisperTranscriber whisper tt in
  exists doc,
    fst (whisper_simple.transcribe simple "talk.wav" None started) = Ok doc
    /\ doc_language doc = "unknown".
Proof.
  intros whisper simple.
  pose (whisperx := scenario_whisperx (Ok tt) (Ok tt) (Ok interview)
                      (Ok interview) (Ok tt)).
  pose (service :=
          @whisperx_service.Build_WhisperXTranscriber whisperx
            "cpu" "int8" tt None).
  eexists. split; [vm_compute; reflexivity|].
  destruct (proj1 (@detected_language_in_document whisper whisperx
                     simple service "talk.wav" None false None None
                     started _) eq_refl)
    as (tr & Htr & Hl).
  cbn in Htr. injection Htr as <-. exact Hl.
Defined.

(** ** [whisperx_service]: the diarization switch *)

Lemma service_transcribe_disabled (whisperx : whisperx_lib)
    (self : whisperx_service.WhisperXTranscriber whisperx)
    path language mn mx mn' mx' :
  whisperx_service.transcribe self path language false mn mx
  = whisperx_service.transcribe self path language false mn' mx'.
Proof.
  unfold whisperx_service.transcribe.
  destruct (whisperx_service.self_diarize_model self); reflexivity.
Qed.

Lemma service_process_file_disabled (os : os_lib) (whisperx : whisperx_lib)
    (self : whisperx_service.WhisperXTranscriber whisperx)
    input_path output_path language mn mx mn' mx' :
  whisperx_service.process_file os self input_path output_path language
    false mn mx
  = whisperx_service.process_file os self input_path output_path language
      false mn' mx'.
Proof.
  unfold whisperx_service.process_file.
  now rewrite (service_transcribe_disabled self input_path language
                 mn mx mn' mx').
Qed.

(** X12.  With [--no-diarization] the run of [whisperx_service] is the
    same whatever the token and the bounds on the number of speakers given
    on the command line: [load_diarization_model] is not called, and
    [transcribe] does not look at the bounds. *)
Theorem service_no_diarization_ignores_options
    (os : os_lib) (whisperx : whisperx_lib) (args : whisperx_service.Args)
    (min_speakers max_speakers : option Z) (hf_token : option string)
    (Hdisabled : whisperx_service.no_diarization args = true) :
  process (whisperx_service.main os whisperx args)
  = process
      (whisperx_service.main os whisperx
         {| whisperx_service.input := whisperx_service.input args;
            whisperx_service.output := whisperx_service.output args;
            whisperx_service.model := whisperx_service.model args;
            whisperx_service.device := whisperx_service.device args;
            whisperx_service.language := whisperx_service.language args;
            whisperx_service.no_diarization := true;
            whisperx_service.min_speakers := min_speakers;
            whisperx_service.max_speakers := max_speakers;
            whisperx_service.hf_token := hf_token |}).
Proof.
  unfold process, whisperx_service.main, whisperx_service.init, started.
  cbn [whisperx_service.input whisperx_service.output
       whisperx_service.model whisperx_service.device
       whisperx_service.language whisperx_service.no_diarization
       whisperx_service.min_speakers whisperx_service.max_speakers
       whisperx_service.hf_token].
  rewrite Hdisabled. exec. cbv [negb].
  destruct (negb (truthy (whisperx_service.output args)));
    [destruct (with_suffix os _ _) as [path|e]|];
    try reflexivity;
    (destruct (load_model whisperx _ _ _ _) as [m|e1]; [|reflexivity]);
    cbv beta iota zeta;
    erewrite service_process_file_disabled; reflexivity.
Qed.

Lemma service_no_diarization_ignores_options_witness :
  let whisperx :=
    scenario_whisperx (Ok tt) (Ok tt) (Ok interview) (Ok interview)
      (Ok tt) in
  whisperx_service.no_diarization quiet_service_args = true
  /\ process (whisperx_service.main scenario_os whisperx quiet_service_args)
     = process
         (whisperx_service.main scenario_os whisperx
            {| whisperx_service.input := "talk.wav";
               whisperx_service.output := Some "talk.json";
               whisperx_service.model := "large-v2";
               whisperx_service.device := "auto";
               whisperx_service.language := None;
               whisperx_service.no_diarization := true;
               whisperx_service.min_speakers := None;
               whisperx_service.max_speakers := None;
               whisperx_service.hf_token := None |}).
Proof.
  split; [reflexivity|].
  exact (@service_no_diarization_ignores_options scenario_os
           (scenario_whisperx (Ok tt) (Ok tt) (Ok interview) (Ok interview)
              (Ok tt))
           quiet_service_args None None None eq_refl).
Defined.

Lemma service_transcribe_diarized (whisperx : whisperx_lib)
    (self : whisperx_service.WhisperXTranscriber whisperx)
    path language mn mx w audio result_ ma segments aligned dm ds assigned :
  whisperx_service.self_diarize_model self = Some dm ->
  load_audio whisperx path = Ok audio ->
  model_transcribe whisperx (whisperx_service.self_model self) audio 16
    language = Ok result_ ->
  load_align_model whisperx (get (raw_language result_) "unknown")
    (whisperx_service.self_device self) = Ok ma ->
  raw_segments result_ = Some segments ->
  align whisperx segments (fst ma) (snd ma) audio
    (whisperx_service.self_device self) = Ok aligned ->
  diarize whisperx dm audio mn mx = Ok ds ->
  assign_word_speakers whisperx ds aligned = Ok assigned ->
  let run := whisperx_service.transcribe self path language true mn mx w in
  fst run
  = whisperx_service.format_output (get (raw_language result_) "unknown")
      assigned
  /\ In (Printed "Performing speaker diarization...") (stderr (snd run)).
Proof.
  intros Hd H1 H2 H3 H4 H5 H6 H7.
  unfold whisperx_service.transcribe. destruct w as [so se fi di]. exec.
  rewrite H1, H2, H3, H4. cbv [subscript]. rewrite H5, Hd, H6, H7.
  cbv [fst snd stderr]. split; [reflexivity|].
  apply in_or_app. right. now left.
Qed.

(** X13.  When diarization is requested, a token is at hand (the argument,
    or the environment variable when the argument is missing or empty) and
    the pipeline loads, [whisperx_service] announces the diarization, calls
    the pipeline with the bounds of the command line, and builds the
    document from what [assign_word_speakers] returns. *)
Theorem diarization_applied
    (os : os_lib) (whisperx : whisperx_lib) (args : whisperx_service.Args)
    (path : string) (m : Model whisperx) (audio : Audio whisperx)
    (result_ : RawResult) (ma : AlignModel whisperx * Metadata whisperx)
    (segments : list RawSegment) (aligned : RawResult)
    (dm : Diarizer whisperx) (ds : DiarizeSegments whisperx)
    (assigned : RawResult) (items : list RawSegment)
    (Hrequested : whisperx_service.no_diarization args = false)
    (Htoken :
       truthy (effective_token os (whisperx_service.hf_token args)) = true)
    (Hpipeline :
       DiarizationPipeline whisperx
         (get (effective_token os (whisperx_service.hf_token args)) "")
         (resolved_device whisperx (whisperx_service.device args)) = Ok dm)
    (Hpath : resolved_output os (whisperx_service.input args)
               (whisperx_service.output args) = Ok path)
    (Hmodel : load_model whisperx (whisperx_service.model args)
                (resolved_device whisperx (whisperx_service.device args))
                (resolved_compute_type whisperx
                   (whisperx_service.device args) "float16") None = Ok m)
    (Haudio : load_audio whisperx (whisperx_service.input args) = Ok audio)
    (Htranscribed :
       model_transcribe whisperx m audio 16 (whisperx_service.language args)
       = Ok result_)
    (Halign_model :
       load_align_model whisperx (get (raw_language result_) "unknown")
         (resolved_device whisperx (whisperx_service.device args)) = Ok ma)
    (Hsegments : raw_segments result_ = Some segments)
    (Haligned :
       align whisperx segments (fst ma) (snd ma) audio
         (resolved_device whisperx (whisperx_service.device args))
       = Ok aligned)
    (Hdiarized :
       diarize whisperx dm audio (whisperx_service.min_speakers args)
         (whisperx_service.max_speakers args) = Ok ds)
    (Hassigned : assign_word_speakers whisperx ds aligned = Ok assigned)
    (Hitems : raw_segments assigned = Some items)
    (Hcomplete : forallb complete_with_words items = true)
    (Hopen : open_w os path = Ok tt) :
  let run := process (whisperx_service.main os whisperx args) in
  exists doc,
    whisperx_service.format_output (get (raw_language result_) "unknown")
      assigned = Ok doc
    /\ fst run = 0%Z
    /\ stdout (snd run) = [JsonDocument doc]
    /\ files (snd run) = [(path, doc)]
    /\ In (Printed "Performing speaker diarization...") (stderr (snd run)).
Proof.
  pose proof (service_format_output_complete
                (get (raw_language result_) "unknown") assigned
                Hitems Hcomplete) as Hdoc.
  eexists. split; [exact Hdoc|].
  assert (Hsome : whisperx_service.self_diarize_model
                    (built_transcriber os whisperx args m) = Some dm).
  { unfold built_transcriber. simpl.
    now rewrite Hrequested, Htoken, Hpipeline. }
  pose proof (service_main_run os whisperx args) as Hrun. cbv zeta in Hrun.
  rewrite Hpath, Hmodel in Hrun.
  destruct Hrun as (w1 & Ho & Hf & _ & _ & _ & Hrun).
  pose proof (service_process_file_outcome os
                (built_transcriber os whisperx args m)
                (whisperx_service.input args) path
                (whisperx_service.language args)
                (negb (whisperx_service.no_diarization args))
                (whisperx_service.min_speakers args)
                (whisperx_service.max_speakers args) w1) as Hp.
  rewrite Hrequested in Hp, Hrun. cbn [negb] in Hp, Hrun.
  destruct (service_transcribe_diarized
              (built_transcriber os whisperx args m)
              (whisperx_service.input args)
              (whisperx_service.language args)
              (whisperx_service.min_speakers args)
              (whisperx_service.max_speakers args) w1
              Hsome Haudio Htranscribed Halign_model Hsegments Haligned
              Hdiarized Hassigned)
    as (Hvalue & Hannounced).
  cbv zeta in Hp. rewrite Hvalue, Hdoc, Hopen in Hp.
  destruct Hp as (Hr & Hso & Hsf & Hse).
  rewrite Hr in Hrun. rewrite Hrun. cbn [fst snd].
  rewrite Hso, Ho, Hsf, Hf, Hse.
  split; [reflexivity|]. split; [reflexivity|]. split; [reflexivity|].
  apply in_or_app. now left.
Qed.

Lemma diarization_applied_witness :
  let whisperx :=
    scenario_whisperx (Ok tt) (Ok tt) (Ok interview) (Ok interview)
      (Ok tt) in
  let run :=
    process (whisperx_service.main scenario_os whisperx
               token_service_args) in
  truthy (effective_token scenario_os
            (whisperx_service.hf_token token_service_args)) = true
  /\ exists doc,
       whisperx_service.format_output "en" interview = Ok doc
       /\ fst run = 0%Z
       /\ stdout (snd run) = [JsonDocument doc]
       /\ files (snd run) = [("talk.json", doc)]
       /\ In (Printed "Performing speaker diarization...")
            (stderr (snd run)).
Proof.
  split; [reflexivity|].
  exact (@diarization_applied scenario_os
           (scenario_whisperx (Ok tt) (Ok tt) (Ok interview) (Ok interview)
              (Ok tt))
           token_service_args "talk.json" tt tt interview (tt, tt)
           interview_segments interview tt tt interview interview_segments
           eq_refl eq_refl eq_refl eq_refl eq_refl eq_refl eq_refl eq_refl
           eq_refl eq_refl eq_refl eq_refl eq_refl eq_refl eq_refl).
Defined.

(** ** Missing keys, from the library to the standard output *)

(** X14.  When the result of Whisper has a segment without [start], [end]
    or [text], the run of [whisper_simple] prints the error document whose
    message is the first missing key in quotes, writes no file and ends
    with status 1. *)
Theorem simple_missing_key_reported
    (os : os_lib) (whisper : whisper_lib) (args : whisper_simple.Args)
    (path : string) (m : whisper_model whisper) (result_ : RawResult)
    (k : string)
    (Hpath : resolved_output os (whisper_simple.input args)
               (whisper_simple.output args) = Ok path)
    (Hmodel : whisper_load_model whisper (whisper_simple.model args) = Ok m)
    (Htranscribed :
       whisper_transcribe whisper m (whisper_simple.input args)
         (whisper_simple.language args) = Ok result_)
    (Hmissing :
       first_of missing_key (get (raw_segments result_) []) = Some k) :
  let run := process (whisper_simple.main os whisper args) in
  fst run = 1%Z
  /\ stdout (snd run) = [JsonError ("'" ++ k ++ "'") false]
  /\ files (snd run) = [].
Proof.
  pose proof (simple_main_run os whisper args) as H. cbv zeta in H.
  rewrite Hpath, Hmodel in H. destruct H as (w1 & Ho & Hf & H).
  pose proof (simple_process_file_outcome os
                {| whisper_simple.self_model := m |}
                (whisper_simple.input args) path
                (whisper_simple.language args) w1) as Hp.
  cbv zeta in Hp, H. rewrite simple_transcribe_value in Hp.
  cbn [whisper_simple.self_model] in Hp. rewrite Htranscribed in Hp.
  unfold whisper_simple.format_output in Hp.
  rewrite simple_loop_missing, Hmissing in Hp. cbn [rbind fst] in Hp.
  destruct Hp as (Hr & Hso & Hsf). rewrite Hr in H. rewrite H.
  cbn [fst snd]. rewrite Hso, Ho, Hsf, Hf. now repeat split.
Qed.

Lemma simple_missing_key_reported_witness :
  let broken :=
    {| raw_language := Some "en";
       raw_segments :=
         Some [ {| raw_start := Some 0; raw_end := None;
                   raw_text := Some "hi"; raw_score := None;
                   raw_confidence := None; raw_words := None;
                   raw_speaker := None |} ] |} in
  let run :=
    process (whisper_simple.main scenario_os
               (scenario_whisper (Ok tt) (Ok broken)) simple_args) in
  first_of missing_key (get (raw_segments broken) []) = Some "end"
  /\ fst run = 1%Z
  /\ stdout (snd run) = [JsonError "'end'" false]
  /\ files (snd run) = [].
Proof.
  split; [reflexivity|].
  exact (@simple_missing_key_reported scenario_os
           (scenario_whisper (Ok tt)
              (Ok {| raw_language := Some "en";
                     raw_segments :=
                       Some [ {| raw_start := Some 0; raw_end := None;
                                 raw_text := Some "hi"; raw_score := None;
                                 raw_confidence := None; raw_words := None;
                                 raw_speaker := None |} ] |}))
           simple_args "talk.json" tt _ "end" eq_refl eq_refl eq_refl
           eq_refl).
Defined.

(** X15.  In [whisperx_service], when no diarization takes place and the
    aligned result lacks a key, of a segment or of one of its words (a
    word WhisperX could not align has no [start]), the run prints the
    error document whose message is the first missing key in quotes,
    writes no file and ends with status 1: one such word loses the whole
    transcription. *)
Theorem service_missing_key_reported
    (os : os_lib) (whisperx : whisperx_lib) (args : whisperx_service.Args)
    (path : string) (m : Model whisperx) (audio : Audio whisperx)
    (result_ : RawResult) (ma : AlignModel whisperx * Metadata whisperx)
    (segments : list RawSegment) (aligned : RawResult)
    (items : list RawSegment) (k : string)
    (Hundiarized :
       whisperx_service.self_diarize_model
         (built_transcriber os whisperx args m) = None)
    (Hpath : resolved_output os (whisperx_service.input args)
               (whisperx_service.output args) = Ok path)
    (Hmodel : load_model whisperx (whisperx_service.model args)
                (resolved_device whisperx (whisperx_service.device args))
                (resolved_compute_type whisperx
                   (whisperx_service.device args) "float16") None = Ok m)
    (Haudio : load_audio whisperx (whisperx_service.input args) = Ok audio)
    (Htranscribed :
       model_transcribe whisperx m audio 16 (whisperx_service.language args)
       = Ok result_)
    (Halign_model :
       load_align_model whisperx (get (raw_language result_) "unknown")
         (resolved_device whisperx (whisperx_service.device args)) = Ok ma)
    (Hsegments : raw_segments result_ = Some segments)
    (Haligned :
       align whisperx segments (fst ma) (snd ma) audio
         (resolved_device whisperx (whisperx_service.device args))
       = Ok aligned)
    (Hitems : raw_segments aligned = Some items)
    (Hmissing : first_of missing_key_with_words items = Some k) :
  let run := process (whisperx_service.main os whisperx args) in
  fst run = 1%Z
  /\ stdout (snd run) = [JsonError ("'" ++ k ++ "'") false]
  /\ files (snd run) = [].
Proof.
  change (reported (KeyError k)
            (process (whisperx_service.main os whisperx args))).
  apply (service_run_reported os whisperx args Hpath Hmodel).
  intros w.
  destruct (service_transcribe_undiarized
              (built_transcriber os whisperx args m)
              (whisperx_service.input args)
              (whisperx_service.language args)
              (negb (whisperx_service.no_diarization args))
              (whisperx_service.min_speakers args)
              (whisperx_service.max_speakers args) w
              Hundiarized Haudio Htranscribed Halign_model Hsegments
              Haligned) as (Hvalue & _).
  rewrite Hvalue. unfold whisperx_service.format_output.
  rewrite Hitems. cbn [subscript rbind].
  now rewrite service_loop_missing, Hmissing.
Qed.

Lemma service_missing_key_reported_witness :
  let run :=
    process (whisperx_service.main scenario_os
               (scenario_whisperx (Ok tt) (Ok tt) (Ok interview)
                  (Ok unaligned_word) (Ok tt))
               quiet_service_args) in
  first_of missing_key_with_words
    (get (raw_segments unaligned_word) []) = Some "start"
  /\ fst run = 1%Z
  /\ stdout (snd run) = [JsonError "'start'" false]
  /\ files (snd run) = [].
Proof.
  split; [reflexivity|].
  exact (@service_missing_key_reported scenario_os
           (scenario_whisperx (Ok tt) (Ok tt) (Ok interview)
              (Ok unaligned_word) (Ok tt))
           quiet_service_args "talk.json" tt tt interview (tt, tt)
           interview_segments unaligned_word _ "start"
           eq_refl eq_refl eq_refl eq_refl eq_refl eq_refl eq_refl eq_refl
           eq_refl eq_refl).
Defined.

(** ** The file of a run *)

(** X16.  A run of [whisper_simple] or of [whisperx_service] writes at
    most one file and nowhere but at the output path: the argument [-o]
    when it is given and not empty, the input path with the suffix [.json]
    otherwise.  When that path cannot be made, the run ends with status 1
    before the model is loaded, with nothing on the standard output. *)
Theorem only_the_output_file
    (os : os_lib) (whisper : whisper_lib) (whisperx : whisperx_lib)
    (simple : whisper_simple.Args) (service : whisperx_service.Args) :
  match resolved_output os (whisper_simple.input simple)
          (whisper_simple.output simple) with
  | Ok path =>
      let written :=
        map fst (files (snd (process
                               (whisper_simple.main os whisper simple)))) in
      written = [] \/ written = [path]
  | Raise _ =>
      silent_failure (process (whisper_simple.main os whisper simple))
  end
  /\ match resolved_output os (whisperx_service.input service)
             (whisperx_service.output service) with
     | Ok path =>
         let written :=
           map fst (files (snd (process
                                  (whisperx_service.main os whisperx
                                     service)))) in
         written = [] \/ written = [path]
     | Raise _ =>
         silent_failure
           (process (whisperx_service.main os whisperx service))
     end.
Proof.
  split.
  - pose proof (simple_main_run os whisper simple) as H. cbv zeta in H.
    destruct (resolved_output os _ _) as [path|e]; [|exact H].
    cbv zeta.
    destruct (whisper_load_model whisper _) as [m|e].
    + destruct H as (w1 & Ho & Hf & H).
      pose proof (simple_process_file_outcome os
                    {| whisper_simple.self_model := m |}
                    (whisper_simple.input simple) path
                    (whisper_simple.language simple) w1) as Hp.
      cbv zeta in Hp.
      destruct (fst (whisper_simple.transcribe _ _ _ w1)) as [doc|e];
        [destruct (open_w os path)|];
        [destruct Hp as (Hr & _ & Hsf)|destruct Hp as (Hr & _ & Hsf)
         |destruct Hp as (Hr & _ & Hsf)];
        rewrite Hr in H; rewrite H; cbn [snd]; rewrite Hsf, Hf;
        [right|left|left]; reflexivity.
    + destruct H as (_ & _ & Hf). rewrite Hf. now left.
  - pose proof (service_main_run os whisperx service) as H. cbv zeta in H.
    destruct (resolved_output os _ _) as [path|e]; [|exact H].
    cbv zeta.
    destruct (load_model whisperx _ _ _ _) as [m|e].
    + destruct H as (w1 & Ho & Hf & _ & _ & _ & H).
      pose proof (service_process_file_outcome os
                    (built_transcriber os whisperx service m)
                    (whisperx_service.input service) path
                    (whisperx_service.language service)
                    (negb (whisperx_service.no_diarization service))
                    (whisperx_service.min_speakers service)
                    (whisperx_service.max_speakers service) w1) as Hp.
      cbv zeta in Hp.
      destruct (fst (whisperx_service.transcribe _ _ _ _ _ _ w1))
        as [doc|e];
        [destruct (open_w os path)|];
        [destruct Hp as (Hr & _ & Hsf & _)|destruct Hp as (Hr & _ & Hsf)
         |destruct Hp as (Hr & _ & Hsf)];
        rewrite Hr in H; rewrite H; cbn [snd]; rewrite Hsf, Hf;
        [right|left|left]; reflexivity.
    + destruct H as (_ & _ & Hf). rewrite Hf. now left.
Qed.

(** ** [test-whisperx-speed]: the loop goes on after a failure *)

Lemma speed_loop (python : test_whisperx_speed.python_lib)
    (whisperx : whisperx_lib) (configs : list test_whisperx_speed.Config) :
  forall readings w,
  exists readings' outcomes,
    for_each_M (test_whisperx_speed.loop_body python whisperx) configs
      readings w
    = (Ok readings',
       {| stdout := stdout w ++ blocks configs outcomes;
          stderr := stderr w; files := files w; dirs := dirs w |})
    /\ Forall2 (reports whisperx) configs outcomes.
Proof.
  induction configs as [|config configs IH]; intros readings w.
  - exists readings, []. cbn [for_each_M blocks]. unfold ret.
    rewrite app_nil_r. destruct w. split; [reflexivity | constructor].
  - cbn [for_each_M]. unfold bind at 1.
    assert (Hbody :
      exists readings1 lines,
        test_whisperx_speed.loop_body python whisperx readings config w
        = (Ok readings1,
           {| stdout :=
                stdout w ++ test_whisperx_speed.announcement config :: lines;
              stderr := stderr w; files := files w; dirs := dirs w |})
        /\ reports whisperx config lines).
    { unfold test_whisperx_speed.loop_body, reports, attempt.
      destruct w as [so se fi di]. exec.
      destruct (load_model whisperx _ _ _ _) as [m|e]; cbn [rbind].
      - destruct (load_audio whisperx _) as [a|e]; cbn [rbind].
        + destruct (model_transcribe whisperx _ _ _ _) as [r|e].
          * eexists. eexists. split; [|eexists; reflexivity].
            now rewrite <- !app_assoc.
          * eexists. eexists. split; [|reflexivity].
            now rewrite <- !app_assoc.
        + eexists. eexists. split; [|reflexivity].
          now rewrite <- !app_assoc.
      - eexists. eexists. split; [|reflexivity].
        now rewrite <- !app_assoc. }
    destruct Hbody as (readings1 & lines & Hbody & Hreports).
    rewrite Hbody.
    destruct (IH readings1
                {| stdout :=
                     stdout w
                     ++ test_whisperx_speed.announcement config :: lines;
                   stderr := stderr w; files := files w; dirs := dirs w |})
      as (readings' & outcomes & Hrest & Hall).
    exists readings', (lines :: outcomes). rewrite Hrest.
    cbn [stdout stderr files dirs blocks]. split; [|now constructor].
    now rewrite <- app_assoc.
Qed.

(** X17.  The speed test never stops early: whatever the library does, it
    ends with status 0, with nothing on the standard error and without a
    file; its output is the heading, then for each of the three
    configurations, in order, the announcement followed by the time and
    the language when the three calls return, or by the error when one of
    them raises, and at the end the recommendation. *)
Theorem speed_test_tries_every_configuration
    (python : test_whisperx_speed.python_lib) (whisperx : whisperx_lib) :
  let run := process (test_whisperx_speed.script python whisperx) in
  fst run = 0%Z
  /\ stderr (snd run) = []
  /\ files (snd run) = []
  /\ exists outcomes,
       Forall2 (reports whisperx) test_whisperx_speed.configs outcomes
       /\ stdout (snd run)
          = Text "Testing WhisperX performance configurations for Apple Silicon..."
            :: blocks test_whisperx_speed.configs outcomes
            ++ [Text (test_whisperx_speed.newline
                        ++ "Recommendation: Use 'small' or 'medium' model with int8 for best speed/quality balance")].
Proof.
  unfold process, test_whisperx_speed.script, started. exec.
  match goal with
  | |- context [for_each_M ?body ?cs ?n ?w] =>
      destruct (speed_loop python whisperx cs n w)
        as (readings & outcomes & Hloop & Hall)
  end.
  rewrite Hloop. cbv beta iota zeta.
  cbn [fst snd stdout stderr files dirs app].
  split; [reflexivity|]. split; [reflexivity|]. split; [reflexivity|].
  exists outcomes. split; [exact Hall | reflexivity].
Qed.
